(** * yapyenum: the [Enumeration] class of [enum.py]

    A shallow embedding of [enum.py] (Python 2: the class is wired to its
    metaclass through [__metaclass__]) and the properties of the
    enumeration facility proved over it.

    The embedding follows the objects the module creates:
    - an [_EnumerationValue] is an [int] carrying the two slots [name] and
      [_enum];
    - a class object is a name and an attribute dictionary ([gmap]); member
      values, the singleton [instance], the list [_values] and the list
      [_enum_] all live in that one dictionary, as they do in Python, so a
      member that is called like one of the class's own attributes rebinds
      it;
    - objects created by [object.__new__] have an identity drawn from a
      counter in the [world], which also records the class objects.

    Names that start with two underscores are hooks of the interpreter
    ([__contains__], [__new__], [__getattribute__], ...).  A member of such a
    name changes how the interpreter treats the class; the embedding does
    not follow that: binding or reading such a name on a class answers
    [Unmodelled], and the statements below say where they leave these names
    out.  Assignment to the [__class__] of an instance, which the
    interpreter allows between enumeration classes, is modelled. *)

From Stdlib Require Import ZArith Ascii String List Bool Lia.
From Stdlib Require Import DecimalString DecimalZ DecimalPos.
From stdpp Require Import gmap strings list fin_maps.

Local Open Scope string_scope.
Local Open Scope Z_scope.
Local Open Scope list_scope.

(** ** Exceptions and results *)

Inductive exn : Type :=
| AttributeError (msg : string)
| TypeError (msg : string)
| IndexError (msg : string)
| Unmodelled (what : string).

Inductive result (A : Type) : Type :=
| Ok (a : A)
| Raise (e : exn).

Arguments Ok {A} a.
Arguments Raise {A} e.

Definition bind {A B : Type} (r : result A) (k : A -> result B) : result B :=
  match r with
  | Ok a => k a
  | Raise e => Raise e
  end.

Notation "x <- r ;; k" := (bind r (fun x => k))
  (at level 100, r at next level, right associativity, only parsing).

Definition is_ok {A : Type} (r : result A) : bool :=
  match r with Ok _ => true | Raise _ => false end.

(** ** Objects *)

(** [class _EnumerationValue(int)] with [__slots__ = ['name', '_enum']]. *)
Record _EnumerationValue : Type := mkEV {
  int_value : Z;
  name : string;
  _enum : string
}.

#[warnings="-register-all"]
Inductive pyobj : Type :=
| PyInt (z : Z)
| PyStr (s : string)
| PyEV (ev : _EnumerationValue)
| PyList (l : list pyobj)
| PyInstance (oid : nat) (cid : nat)   (* object.__new__(cls): identity, class *)
| PyClass (cid : nat)                  (* a class object *)
| PyClassMethod                        (* the classmethod object wrapping [name] *)
| PyBoundName (cid : nat)              (* [cls.name], bound to the class *)
| PyMetaEnumeration.                   (* the class object [__MetaEnumeration] *)

Record class_obj : Type := mkClass {
  cls_id : nat;
  cls_name : string;
  cls_dict : gmap string pyobj
}.

Record world : Type := mkWorld {
  next_id : nat;
  classes : gmap nat class_obj
}.

(** Names of the interpreter's own attributes. *)
Definition special (attr : string) : bool := String.prefix "__" attr.

(** The integer an object stands for, when it is an [int] or a subclass. *)
Definition as_int (o : pyobj) : option Z :=
  match o with
  | PyInt z => Some z
  | PyEV ev => Some (int_value ev)
  | _ => None
  end.

(** [a == b].  Integers (and enumeration values, which are integers) compare
    by value, strings by content, lists element-wise, every other object by
    identity. *)
Fixpoint py_eq (a b : pyobj) {struct a} : bool :=
  match a, b with
  | PyInt x, PyInt y => x =? y
  | PyInt x, PyEV e => x =? int_value e
  | PyEV e, PyInt y => int_value e =? y
  | PyEV e, PyEV f => int_value e =? int_value f
  | PyStr s, PyStr t => String.eqb s t
  | PyList l, PyList m =>
      (fix go (l : list pyobj) (m : list pyobj) {struct l} : bool :=
         match l, m with
         | [], [] => true
         | x :: l', y :: m' => py_eq x y && go l' m'
         | _, _ => false
         end) l m
  | PyInstance o _, PyInstance p _ => Nat.eqb o p
  | PyClass c, PyClass d => Nat.eqb c d
  | PyClassMethod, PyClassMethod => true
  | PyBoundName c, PyBoundName d => Nat.eqb c d
  | PyMetaEnumeration, PyMetaEnumeration => true
  | _, _ => false
  end.

(** [a + b] on integers; the sum of an enumeration value and an integer is a
    plain [int]. *)
Definition py_add (a b : pyobj) : result pyobj :=
  match as_int a, as_int b with
  | Some x, Some y => Ok (PyInt (x + y))
  | _, _ => Raise (TypeError "unsupported operand type(s) for +")
  end.

Definition type_name (o : pyobj) : string :=
  match o with
  | PyInt _ => "int"
  | PyStr _ => "str"
  | PyEV _ => "_EnumerationValue"
  | PyList _ => "list"
  | PyInstance _ _ => "object"
  | PyClass _ => "type"
  | PyClassMethod => "classmethod"
  | PyBoundName _ => "instancemethod"
  | PyMetaEnumeration => "type"
  end.

(** ** Sequences *)

(** [x in seq] for the built-in containers.  A list is searched with [==];
    a string answers the substring test and wants a string on the left; an
    integer is not a container. *)
Definition seq_contains (x seq : pyobj) : result bool :=
  match seq with
  | PyList l => Ok (existsb (py_eq x) l)
  | PyStr s =>
      match x with
      | PyStr sub =>
          Ok (match String.index 0 sub s with Some _ => true | None => false end)
      | _ => Raise (TypeError "'in <string>' requires string as left operand")
      end
  | _ => Raise (TypeError ("argument of type '" ++ type_name seq ++ "' is not iterable"))
  end.

(** [l[z]] on a Python list: a negative index counts from the end. *)
Definition list_getitem (l : list pyobj) (z : Z) : result pyobj :=
  let len := Z.of_nat (length l) in
  let i := if z <? 0 then z + len else z in
  if (i <? 0) || (len <=? i) then Raise (IndexError "list index out of range")
  else
    match l !! Z.to_nat i with
    | Some x => Ok x
    | None => Raise (IndexError "list index out of range")
    end.

(** [seq[idx]]. *)
Definition py_getitem (seq idx : pyobj) : result pyobj :=
  match seq with
  | PyList l =>
      match as_int idx with
      | Some z => list_getitem l z
      | None => Raise (TypeError "list indices must be integers")
      end
  | _ => Raise (TypeError ("'" ++ type_name seq ++ "' object is unsubscriptable"))
  end.

(** ** Attribute lookup *)

Definition Enumeration_id : nat := 0%nat.

(** The base class [Enumeration] as its own metaclass leaves it: the class
    body binds the nested metaclass (under its mangled name), [_enum_ = []]
    and the classmethod [name]; [__new__] of the metaclass forces
    [__slots__ = []]; [__init__] of the metaclass adds [instance] and
    [_values]. *)
Definition Enumeration_class : class_obj :=
  mkClass Enumeration_id "Enumeration"
    (<["_values" := PyList []]>
       (<["instance" := PyInstance 1 Enumeration_id]>
          (<["__slots__" := PyList []]>
             (<["name" := PyClassMethod]>
                (<["_enum_" := PyList []]>
                   (<["_Enumeration__MetaEnumeration" := PyMetaEnumeration]> ∅)))))).

(** Lookup along the method resolution order of a class derived from
    [Enumeration]: the class's own dictionary, then the base's. *)
Definition mro_lookup (cls : class_obj) (attr : string) : option pyobj :=
  match cls_dict cls !! attr with
  | Some v => Some v
  | None => cls_dict Enumeration_class !! attr
  end.

(** A classmethod found on the class is handed out bound to the class the
    lookup started from; every other object is handed out as it is. *)
Definition bind_descr (cls : class_obj) (v : pyobj) : pyobj :=
  match v with
  | PyClassMethod => PyBoundName (cls_id cls)
  | _ => v
  end.

(** [cls.attr] *)
Definition class_getattr (cls : class_obj) (attr : string) : result pyobj :=
  if special attr then Raise (Unmodelled attr)
  else
    match mro_lookup cls attr with
    | Some v => Ok (bind_descr cls v)
    | None =>
        Raise (AttributeError
                 ("type object '" ++ cls_name cls ++ "' has no attribute '" ++ attr ++ "'"))
    end.

(** [setattr(cls, attr, v)]: bound in the class's dictionary.  Python binds
    a name that starts with two underscores as well, and with it changes a
    hook of the class; the embedding stops there with [Unmodelled], so no
    dictionary it builds holds such a member. *)
Definition class_setattr (cls : class_obj) (attr : string) (v : pyobj) : result class_obj :=
  if special attr then Raise (Unmodelled attr)
  else Ok (mkClass (cls_id cls) (cls_name cls) (<[attr := v]> (cls_dict cls))).

(** [self.attr] on an instance of [cls].  [__slots__] is forced to [[]], so
    the instance has no dictionary of its own and the lookup is the
    class's. *)
Definition instance_getattr (cls : class_obj) (attr : string) : result pyobj :=
  if special attr then Raise (Unmodelled attr)
  else
    match mro_lookup cls attr with
    | Some v => Ok (bind_descr cls v)
    | None =>
        Raise (AttributeError
                 ("'" ++ cls_name cls ++ "' object has no attribute '" ++ attr ++ "'"))
    end.

(** ** [_EnumerationValue] *)

(** [_EnumerationValue.__new__(cls, name, enum_name, value)] *)
Definition _EnumerationValue___new__ (member_name enum_name : string) (value : Z)
  : _EnumerationValue :=
  mkEV value member_name enum_name.

(** [_EnumerationValue.__setattr__(self, name, value)], run in the world
    [w]: it answers with the world it leaves and with what it raised. *)
Definition _EnumerationValue___setattr__ (w : world) (self : _EnumerationValue)
    (attr : string) (value : pyobj) : world * result unit :=
  (w, Raise (AttributeError
               ("'_EnumerationValue' object attribute '" ++ attr ++ "' is read-only"))).

(** The attributes an [int] has besides its hooks; they are not modelled. *)
Definition int_attrs : list string :=
  ["real"; "imag"; "numerator"; "denominator"; "conjugate"; "bit_length"].

(** [ev.attr]: the two slots are read; the attributes of [int] are not
    modelled; any other name is missing. *)
Definition _EnumerationValue_getattr (self : _EnumerationValue) (attr : string)
  : result pyobj :=
  if String.eqb attr "name" then Ok (PyStr (name self))
  else if String.eqb attr "_enum" then Ok (PyStr (_enum self))
  else if special attr || bool_decide (attr ∈ int_attrs) then Raise (Unmodelled attr)
  else
    Raise (AttributeError
             ("'_EnumerationValue' object has no attribute '" ++ attr ++ "'")).

(** ** The world: identities and class objects *)

Definition find_class (w : world) (cid : nat) : result class_obj :=
  match classes w !! cid with
  | Some cls => Ok cls
  | None => Raise (Unmodelled "no such class")
  end.

(** A fresh identity. *)
Definition alloc (w : world) : world * nat :=
  (mkWorld (S (next_id w)) (classes w), next_id w).

Definition store_class (w : world) (cls : class_obj) : world :=
  mkWorld (next_id w) (<[cls_id cls := cls]> (classes w)).

(** ** Assignment on an instance *)

(** Whether instances of the class are laid out without a dictionary: the
    class carries the [__slots__ = []] that [__new__] of the metaclass
    forces. *)
Definition slotless (cls : class_obj) : bool :=
  match cls_dict cls !! "__slots__" with
  | Some (PyList []) => true
  | _ => false
  end.

(** The hooks and other double-underscore attributes every instance of an
    enumeration class finds on its type: those of [object] and those the
    body of [Enumeration] binds (as of Python 2.6). *)
Definition inherited_special : list string :=
  ["__class__"; "__contains__"; "__delattr__"; "__doc__"; "__format__";
   "__getattribute__"; "__hash__"; "__init__"; "__metaclass__"; "__module__";
   "__new__"; "__reduce__"; "__reduce_ex__"; "__repr__"; "__setattr__";
   "__sizeof__"; "__slots__"; "__str__"; "__subclasshook__"].

(** Every reference to the object [oid] read again as an instance of the
    class [cid].  An object's class is part of each reference to it, so
    giving the object another class is rewriting the references the world
    holds. *)
Fixpoint retype (oid cid : nat) (o : pyobj) {struct o} : pyobj :=
  match o with
  | PyInstance o' c => if Nat.eqb o' oid then PyInstance o' cid else PyInstance o' c
  | PyList l => PyList (List.map (retype oid cid) l)
  | _ => o
  end.

Definition retype_class (oid cid : nat) (c : class_obj) : class_obj :=
  mkClass (cls_id c) (cls_name c) (retype oid cid <$> cls_dict c).

Definition retype_world (oid cid : nat) (w : world) : world :=
  mkWorld (next_id w) (retype_class oid cid <$> classes w).

(** [obj.__class__ = v] for the slot-less object [oid]: the interpreter
    accepts a class whose instances have the same layout, that is another
    slot-less class, and refuses every object that is not such a class. *)
Definition object_set_class (w : world) (oid : nat) (v : pyobj) : world * result unit :=
  match v with
  | PyClass cid =>
      match classes w !! cid with
      | Some c =>
          if slotless c then (retype_world oid cid w, Ok tt)
          else (w, Raise (Unmodelled "__class__"))
      | None => (w, Raise (Unmodelled "no such class"))
      end
  | PyMetaEnumeration =>
      (w, Raise (TypeError "__class__ assignment: object layout differs"))
  | _ =>
      (w, Raise (TypeError
                   ("__class__ must be set to new-style class, not '"
                    ++ type_name v ++ "' object")))
  end.

(** [self.attr = v] on the instance [oid] of [cls], run in the world [w].
    With the forced empty [__slots__] the instance has no dictionary: the
    only attribute with a setter is [__class__] (of [object]); for any other
    name there is nowhere to store the value, and the message tells whether
    the type has the attribute. *)
Definition instance_setattr (w : world) (cls : class_obj) (oid : nat)
    (attr : string) (v : pyobj) : world * result unit :=
  if negb (slotless cls) then (w, Raise (Unmodelled "instance dictionary"))
  else if String.eqb attr "__class__" then object_set_class w oid v
  else
    match mro_lookup cls attr, bool_decide (attr ∈ inherited_special) with
    | None, false =>
        (w, Raise (AttributeError
                     ("'" ++ cls_name cls ++ "' object has no attribute '"
                      ++ attr ++ "'")))
    | _, _ =>
        (w, Raise (AttributeError
                     ("'" ++ cls_name cls ++ "' object attribute '" ++ attr
                      ++ "' is read-only")))
    end.

(** What Python itself raises, as against the embedding giving up. *)
Definition python_exception (e : exn) : bool :=
  match e with
  | Unmodelled _ => false
  | _ => true
  end.

(** The world once [enum.py] is imported: only [Enumeration] exists, with
    its own singleton. *)
Definition world0 : world :=
  mkWorld 2 (<[Enumeration_id := Enumeration_class]> ∅).

(** ** [Enumeration] *)

(** [Enumeration.__new__(cls, first_time=...)] *)
Definition Enumeration___new__ (w : world) (cls : class_obj) (first_time : bool)
  : result (world * pyobj) :=
  if first_time then
    (* object.__new__(cls) *)
    let (w', oid) := alloc w in Ok (w', PyInstance oid (cls_id cls))
  else
    inst <- class_getattr cls "instance" ;;
    Ok (w, inst).

(** [Enumeration.__contains__(self, name_or_value)], [self] an instance of
    [cls]. *)
Definition Enumeration___contains__ (cls : class_obj) (name_or_value : pyobj) : result bool :=
  match name_or_value with
  | PyStr _ =>
      (* type(name_or_value) == str *)
      _enum_ <- instance_getattr cls "_enum_" ;;
      seq_contains name_or_value _enum_
  | _ =>
      _values <- instance_getattr cls "_values" ;;
      seq_contains name_or_value _values
  end.

(** [Enumeration.name(cls, value)] *)
Definition Enumeration_name (cls : class_obj) (value : pyobj) : result pyobj :=
  _enum_ <- class_getattr cls "_enum_" ;;
  py_getitem _enum_ value.

(** [obj.__contains__(x)], the explicit method call: found on the type of
    [obj].  For an instance of an enumeration class that is
    [Enumeration.__contains__], since no class dictionary of the embedding
    holds a member under [__contains__] (see [class_setattr]).  Integers
    have no such method. *)
Definition call___contains__ (w : world) (obj x : pyobj) : result bool :=
  match obj with
  | PyInstance _ cid =>
      cls <- find_class w cid ;;
      Enumeration___contains__ cls x
  | PyList _ | PyStr _ => seq_contains x obj
  | PyInt _ | PyEV _ =>
      Raise (AttributeError
               ("'" ++ type_name obj ++ "' object has no attribute '__contains__'"))
  | _ => Raise (Unmodelled "__contains__")
  end.

(** ** The metaclass [__MetaEnumeration] *)

(** [__MetaEnumeration.__new__(cls, name, bases, dct)]: [__slots__] is forced
    empty in the dictionary of the class body, and the class object gets a
    fresh identity.  (With empty slots instances have no dictionary, see
    [instance_setattr].) *)
Definition Meta___new__ (w : world) (nm : string) (dct : gmap string pyobj)
  : world * class_obj :=
  let dct := <["__slots__" := PyList []]> dct in
  let (w', cid) := alloc w in (w', mkClass cid nm dct).

(** [cls._values.append(ev)].  The list made by [cls._values = []] is
    reachable through the attribute [_values] only, so growing it in place is
    rebinding the attribute to the longer list. *)
Definition append_values (cls : class_obj) (ev : pyobj) : result class_obj :=
  _values <- class_getattr cls "_values" ;;
  match _values with
  | PyList l => Ok (mkClass (cls_id cls) (cls_name cls)
                      (<["_values" := PyList (l ++ [ev])]> (cls_dict cls)))
  | _ =>
      Raise (AttributeError
               ("'" ++ type_name _values ++ "' object has no attribute 'append'"))
  end.

(** The loop [for value, member_name in enumerate(cls._enum_)] from position
    [value] on, over the items still to come. *)
Fixpoint init_members (cls : class_obj) (nm : string) (value : Z) (items : list pyobj)
  : result class_obj :=
  match items with
  | [] => Ok cls
  | PyStr member_name :: rest =>
      let ev := PyEV (_EnumerationValue___new__ member_name nm value) in
      cls1 <- class_setattr cls member_name ev ;;
      cls2 <- append_values cls1 ev ;;
      init_members cls2 nm (value + 1) rest
  | _ :: _ => Raise (TypeError "attribute name must be string")
  end.

(** [__MetaEnumeration.__init__(cls, name, bases, dct)] *)
Definition Meta___init__ (w : world) (cls : class_obj) (nm : string)
  : result (world * class_obj) :=
  (* Create the single instance. *)
  r <- Enumeration___new__ w cls true ;;
  let (w1, inst) := (r : world * pyobj) in
  cls1 <- class_setattr cls "instance" inst ;;
  (* Create the enumerated attributes on the type. *)
  cls2 <- class_setattr cls1 "_values" (PyList []) ;;
  _enum_ <- class_getattr cls2 "_enum_" ;;
  match _enum_ with
  | PyList items =>
      cls3 <- init_members cls2 nm 0 items ;;
      Ok (w1, cls3)
  | _ => Raise (TypeError ("'" ++ type_name _enum_ ++ "' object is not iterable"))
  end.

(** The class statement
    [class nm(Enumeration): _enum_ = names]:
    the metaclass builds the class object and initialises it; the finished
    class is recorded in the world. *)
Definition declare (w : world) (nm : string) (names : list string)
  : result (world * class_obj) :=
  let dct : gmap string pyobj := <["_enum_" := PyList (PyStr <$> names)]> ∅ in
  let (w0, cls) := Meta___new__ w nm dct in
  r <- Meta___init__ w0 cls nm ;;
  let (w1, cls') := (r : world * class_obj) in
  Ok (store_class w1 cls', cls').

(** ** Operators and calls on the declared type *)

(** [__MetaEnumeration.__contains__(cls, name_or_value)] *)
Definition Meta___contains__ (w : world) (cls : class_obj) (name_or_value : pyobj)
  : result bool :=
  inst <- class_getattr cls "instance" ;;
  call___contains__ w inst name_or_value.

(** The expression [x in container]. *)
Definition py_in (w : world) (x container : pyobj) : result bool :=
  match container with
  | PyClass cid =>
      cls <- find_class w cid ;;
      Meta___contains__ w cls x
  | PyInstance _ cid =>
      cls <- find_class w cid ;;
      Enumeration___contains__ cls x
  | PyList _ | PyStr _ => seq_contains x container
  | _ =>
      Raise (TypeError ("argument of type '" ++ type_name container ++ "' is not iterable"))
  end.

(** The call [cls()]: [type.__call__] runs [Enumeration.__new__] without
    keywords; [object.__init__] then has nothing to do. *)
Definition construct (w : world) (cls : class_obj) : result (world * pyobj) :=
  Enumeration___new__ w cls false.

(** The call [f(arg)]. *)
Definition py_call (w : world) (f arg : pyobj) : result pyobj :=
  match f with
  | PyBoundName cid =>
      cls <- find_class w cid ;;
      Enumeration_name cls arg
  | PyClass cid =>
      cls <- find_class w cid ;;
      r <- construct w cls ;;
      Ok (snd (r : world * pyobj))
  | PyMetaEnumeration => Raise (Unmodelled "class creation")
  | _ => Raise (TypeError ("'" ++ type_name f ++ "' object is not callable"))
  end.

(** [cls.name(value)]: the attribute is looked up, then called. *)
Definition call_name (w : world) (cls : class_obj) (value : pyobj) : result pyobj :=
  f <- class_getattr cls "name" ;;
  py_call w f value.

(** [obj.attr] *)
Definition py_getattr (w : world) (obj : pyobj) (attr : string) : result pyobj :=
  match obj with
  | PyClass cid => cls <- find_class w cid ;; class_getattr cls attr
  | PyInstance _ cid => cls <- find_class w cid ;; instance_getattr cls attr
  | PyEV ev => _EnumerationValue_getattr ev attr
  | _ => Raise (Unmodelled attr)
  end.

(** The statement [obj.attr = value]: the [__setattr__] of the object's type
    is run.  It answers with the world it leaves behind and with what the
    statement raised, if anything.  Binding an attribute of [Enumeration]
    itself is not modelled. *)
Definition py_setattr (w : world) (obj : pyobj) (attr : string) (value : pyobj)
  : world * result unit :=
  match obj with
  | PyEV ev => _EnumerationValue___setattr__ w ev attr value
  | PyInstance oid cid =>
      match find_class w cid with
      | Ok cls => instance_setattr w cls oid attr value
      | Raise e => (w, Raise e)
      end
  | PyClass cid =>
      if Nat.eqb cid Enumeration_id then (w, Raise (Unmodelled attr))
      else
        match (cls <- find_class w cid ;; class_setattr cls attr value) with
        | Ok cls' => (store_class w cls', Ok tt)
        | Raise e => (w, Raise e)
        end
  | _ => (w, Raise (Unmodelled attr))
  end.

(** ** Definitions the statements are written with *)

(** The member objects the loop of [__init__] creates for [names], numbered
    from [start]: what [_values] is expected to hold. *)
Fixpoint member_values (nm : string) (start : Z) (names : list string) : list pyobj :=
  match names with
  | [] => []
  | n :: rest => PyEV (mkEV start n nm) :: member_values nm (start + 1) rest
  end.

(** A name the declaration can bind: not one of the interpreter's, and not
    [_values], which the loop itself appends to. *)
Definition bindable (n : string) : Prop := special n = false /\ n <> "_values".

(** The dictionary [__init__] starts the loop with. *)
Definition initial_dict (w : world) (names : list string) : gmap string pyobj :=
  <["_values" := PyList []]>
    (<["instance" := PyInstance (S (next_id w)) (next_id w)]>
       (<["__slots__" := PyList []]>
          (<["_enum_" := PyList (PyStr <$> names)]> ∅))).

(** [0 <= v <= k] for the members [n0 .. nk]. *)
Definition is_member_value (names : list string) (v : Z) : bool :=
  (0 <=? v) && (v <? Z.of_nat (length names)).

(** The doctest's enumeration, and a second type declared after it with the
    same members. *)

Definition EnumTest_names : list string := ["foo"; "bar"; "rab"; "oof"].

Definition EnumTest_world : world :=
  match declare world0 "EnumTest" EnumTest_names with
  | Ok (w, _) => w
  | Raise _ => world0
  end.

Definition EnumTest : class_obj :=
  match declare world0 "EnumTest" EnumTest_names with
  | Ok (_, cls) => cls
  | Raise _ => Enumeration_class
  end.

(** [cls()] called [n] times in a row: the objects handed out. *)
Fixpoint construct_times (n : nat) (w : world) (cls : class_obj)
  : result (world * list pyobj) :=
  match n with
  | O => Ok (w, [])
  | S n' =>
      r <- construct w cls ;;
      rs <- construct_times n' (fst r) cls ;;
      Ok (fst rs, snd r :: snd rs)
  end.

(** Whether an object is an instance of the class [cid]. *)
Definition is_instance_of (o : pyobj) (cid : nat) : bool :=
  match o with
  | PyInstance _ c => Nat.eqb c cid
  | _ => false
  end.

Definition EnumTest2_world : world :=
  match declare EnumTest_world "EnumTest2" EnumTest_names with
  | Ok (w, _) => w
  | Raise _ => world0
  end.

Definition EnumTest2 : class_obj :=
  match declare EnumTest_world "EnumTest2" EnumTest_names with
  | Ok (_, cls) => cls
  | Raise _ => Enumeration_class
  end.

(** ** The rest of [_EnumerationValue], and worlds to try statements on *)

(** [%d] of an integer: its decimal digits, after a minus sign when it is
    negative. *)
Definition format_d (z : Z) : string := NilZero.string_of_int (Z.to_int z).

(** [_EnumerationValue.__repr__(self)]:
    ['<%s: %s=%d>' % (self._enum, self.name, int(self))] *)
Definition _EnumerationValue___repr__ (self : _EnumerationValue) : string :=
  ("<" ++ _enum self ++ ": " ++ name self ++ "=" ++ format_d (int_value self)
   ++ ">")%string.

(** An enumeration with a name listed twice. *)
Definition Dup_names : list string := ["a"; "b"; "a"].

Definition Dup_world : world :=
  match declare world0 "Dup" Dup_names with
  | Ok (w, _) => w
  | Raise _ => world0
  end.

Definition Dup : class_obj :=
  match declare world0 "Dup" Dup_names with
  | Ok (_, cls) => cls
  | Raise _ => Enumeration_class
  end.

(** The enumeration of [_test], declared after the doctest's. *)
Definition ET_names : list string := ["a"; "b"; "c"].

Definition ET_world : world :=
  match declare EnumTest_world "ET" ET_names with
  | Ok (w, _) => w
  | Raise _ => world0
  end.

Definition ET : class_obj :=
  match declare EnumTest_world "ET" ET_names with
  | Ok (_, cls) => cls
  | Raise _ => Enumeration_class
  end.

(** * Properties *)

(** Case analysis on every integer comparison in the goal. *)
Ltac zcase_one :=
  match goal with
  | |- context [(?x =? ?y)%Z] => case (Z.eqb_spec x y); intros
  | |- context [(?x <? ?y)%Z] => case (Z.ltb_spec x y); intros
  | |- context [(?x <=? ?y)%Z] => case (Z.leb_spec x y); intros
  end.

Ltac zcases := repeat zcase_one; simpl; try done; try lia.

(** ** What a declaration leaves in the class dictionary *)

Lemma member_values_length nm start names :
  length (member_values nm start names) = length names.
Proof.
  revert start. induction names as [|n rest IH]; intros start; simpl; [done|].
  by rewrite IH.
Qed.

Lemma member_values_lookup nm names : forall start (i : nat) n,
  names !! i = Some n ->
  member_values nm start names !! i = Some (PyEV (mkEV (start + Z.of_nat i) n nm)).
Proof.
  induction names as [|n0 rest IH]; intros start i n Hi; [done|].
  destruct i as [|i]; simpl in *.
  - inversion Hi; subst. by rewrite Z.add_0_r.
  - rewrite (IH (start + 1) i n Hi). do 3 f_equal. lia.
Qed.

Lemma member_values_app nm names1 names2 start :
  member_values nm start (names1 ++ names2) =
  (member_values nm start names1 ++
   member_values nm (start + Z.of_nat (length names1)) names2)%list.
Proof.
  revert start. induction names1 as [|n rest IH]; intros start; simpl.
  - by rewrite Z.add_0_r.
  - rewrite IH. do 3 f_equal. lia.
Qed.

Lemma special__values : special "_values" = false.
Proof. reflexivity. Qed.

Lemma special__enum_ : special "_enum_" = false.
Proof. reflexivity. Qed.

Lemma special_instance : special "instance" = false.
Proof. reflexivity. Qed.

Lemma special_name : special "name" = false.
Proof. reflexivity. Qed.

(** One turn of the loop. *)
Lemma init_members_cons cls nm start n rest cls' :
  init_members cls nm start (PyStr n :: rest) = Ok cls' ->
  bindable n /\
  exists l0,
    mro_lookup (mkClass (cls_id cls) (cls_name cls)
                  (<[n := PyEV (mkEV start n nm)]> (cls_dict cls))) "_values"
      = Some (PyList l0) /\
    init_members
      (mkClass (cls_id cls) (cls_name cls)
         (<["_values" := PyList (l0 ++ [PyEV (mkEV start n nm)])]>
            (<[n := PyEV (mkEV start n nm)]> (cls_dict cls))))
      nm (start + 1) rest = Ok cls'.
Proof.
  simpl. unfold class_setattr.
  destruct (special n) eqn:Hsp; simpl; [discriminate|].
  unfold append_values, class_getattr. rewrite special__values.
  destruct (mro_lookup _ "_values") as [v|] eqn:Hv; simpl; [|discriminate].
  destruct v; simpl; try discriminate.
  intros Hrest. split.
  - split; [done|]. intros ->.
    unfold mro_lookup in Hv. simpl in Hv.
    rewrite lookup_insert_eq in Hv. discriminate.
  - eexists. split; [reflexivity|]. exact Hrest.
Qed.

Lemma init_members_inv names : forall cls nm start l0 cls',
  cls_dict cls !! "_values" = Some (PyList l0) ->
  init_members cls nm start (PyStr <$> names) = Ok cls' ->
  cls_id cls' = cls_id cls /\
  cls_name cls' = cls_name cls /\
  Forall bindable names /\
  cls_dict cls' !! "_values" = Some (PyList (l0 ++ member_values nm start names)) /\
  (forall a, a ∉ names -> a <> "_values" -> cls_dict cls' !! a = cls_dict cls !! a) /\
  (forall (i : nat) n, names !! i = Some n -> n ∉ drop (S i) names ->
     cls_dict cls' !! n = Some (PyEV (mkEV (start + Z.of_nat i) n nm))).
Proof.
  induction names as [|n rest IH]; intros cls nm start l0 cls' Hl0 Hrun.
  - simpl in Hrun. inversion Hrun; subst cls'.
    rewrite app_nil_r. repeat split; try done.
  - rewrite fmap_cons in Hrun.
    apply init_members_cons in Hrun as [[Hsp Hne] (l1 & Hl1 & Hrun)].
    unfold mro_lookup in Hl1. simpl in Hl1.
    rewrite lookup_insert_ne in Hl1 by done. rewrite Hl0 in Hl1.
    inversion Hl1; subst l1; clear Hl1.
    apply (IH _ _ _ (l0 ++ [PyEV (mkEV start n nm)])) in Hrun
      as (Hid & Hnm & Hall & Hvals & Hother & Hmem);
      [|simpl; by rewrite lookup_insert_eq].
    simpl in Hid, Hnm.
    split; [done|]. split; [done|]. split; [by constructor|].
    split; [by rewrite Hvals, <- app_assoc|].
    split.
    + intros a Ha Hav. apply not_elem_of_cons in Ha as [Han Ha].
      rewrite (Hother a Ha Hav). simpl.
      rewrite lookup_insert_ne by done. by rewrite lookup_insert_ne.
    + intros i m Hi Hlast. destruct i as [|i]; simpl in Hi, Hlast.
      * inversion Hi; subst m. rewrite (Hother n Hlast Hne). simpl.
        rewrite lookup_insert_ne by done. rewrite lookup_insert_eq.
        by rewrite Z.add_0_r.
      * rewrite (Hmem i m Hi Hlast). do 3 f_equal. lia.
Qed.

(** The loop runs to its end on bindable names. *)
Lemma init_members_ok names : forall cls nm start l0,
  cls_dict cls !! "_values" = Some (PyList l0) ->
  Forall bindable names ->
  exists cls', init_members cls nm start (PyStr <$> names) = Ok cls'.
Proof.
  induction names as [|n rest IH]; intros cls nm start l0 Hl0 Hall.
  - by eexists.
  - apply Forall_cons in Hall as [[Hsp Hne] Hall].
    rewrite fmap_cons. simpl. unfold class_setattr. rewrite Hsp. simpl.
    unfold append_values, class_getattr. rewrite special__values.
    unfold mro_lookup. simpl. rewrite lookup_insert_ne by done.
    rewrite Hl0. simpl.
    eapply IH; [|done]. simpl. by rewrite lookup_insert_eq.
Qed.

Lemma declare_unfold w nm names :
  declare w nm names =
  (cls' <- init_members (mkClass (next_id w) nm (initial_dict w names)) nm 0
             (PyStr <$> names) ;;
   Ok (store_class (mkWorld (S (S (next_id w))) (classes w)) cls', cls')).
Proof.
  unfold declare, Meta___new__, Meta___init__, Enumeration___new__, alloc. simpl.
  unfold class_getattr, mro_lookup. simpl.
  rewrite !lookup_insert_ne by done.
  rewrite lookup_insert_eq. simpl.
  fold (initial_dict w names).
  by destruct (init_members _ nm 0 (PyStr <$> names)).
Qed.

(** Everything later proofs need to know about a declared class. *)
Lemma declare_inv w nm names w' cls :
  declare w nm names = Ok (w', cls) ->
  cls_id cls = next_id w /\
  cls_name cls = nm /\
  w' = mkWorld (S (S (next_id w))) (<[next_id w := cls]> (classes w)) /\
  Forall bindable names /\
  cls_dict cls !! "_values" = Some (PyList (member_values nm 0 names)) /\
  ("instance" ∉ names ->
   cls_dict cls !! "instance" = Some (PyInstance (S (next_id w)) (next_id w))) /\
  ("_enum_" ∉ names ->
   cls_dict cls !! "_enum_" = Some (PyList (PyStr <$> names))) /\
  (forall a, a ∉ names -> a <> "_values" -> a <> "instance" -> a <> "_enum_" ->
     a <> "__slots__" -> cls_dict cls !! a = None) /\
  (forall (i : nat) n, names !! i = Some n -> n ∉ drop (S i) names ->
     cls_dict cls !! n = Some (PyEV (mkEV (Z.of_nat i) n nm))).
Proof.
  rewrite declare_unfold.
  destruct (init_members _ nm 0 (PyStr <$> names)) as [c|e] eqn:Hrun;
    simpl; [|discriminate].
  intros Heq. inversion Heq; subst c w'; clear Heq.
  apply (init_members_inv _ _ _ _ []) in Hrun
    as (Hid & Hnm & Hall & Hvals & Hother & Hmem); [|done].
  simpl in Hid, Hnm, Hvals, Hother.
  unfold store_class. simpl. rewrite Hid.
  repeat split; try done.
  - intros Hin. rewrite (Hother _ Hin) by done. unfold initial_dict.
    rewrite lookup_insert_ne by done. by rewrite lookup_insert_eq.
  - intros Hin. rewrite (Hother _ Hin) by done. unfold initial_dict.
    rewrite !lookup_insert_ne by done.
    by rewrite lookup_insert_eq.
  - intros a Hin H1 H2 H3 H4. rewrite (Hother _ Hin H1). unfold initial_dict.
    by rewrite !lookup_insert_ne.
Qed.

(** A declared class carries the forced [__slots__ = []]. *)
Lemma declare_slotless w nm names w' cls :
  declare w nm names = Ok (w', cls) -> slotless cls = true.
Proof.
  rewrite declare_unfold.
  destruct (init_members _ nm 0 (PyStr <$> names)) as [c|e] eqn:Hrun;
    simpl; [|discriminate].
  intros Heq. inversion Heq; subst c w'; clear Heq.
  apply (init_members_inv _ _ _ _ []) in Hrun
    as (_ & _ & Hall & _ & Hother & _); [|done].
  unfold slotless. rewrite (Hother "__slots__"); [| |done].
  - unfold initial_dict. simpl. rewrite !lookup_insert_ne by done.
    by rewrite lookup_insert_eq.
  - intros Hin. rewrite Forall_forall in Hall.
    destruct (Hall _ Hin) as [Hsp _]. discriminate.
Qed.

(** A declaration goes through exactly on bindable names. *)
Lemma declare_ok w nm names :
  Forall bindable names -> exists w' cls, declare w nm names = Ok (w', cls).
Proof.
  intros Hall. rewrite declare_unfold.
  destruct (init_members_ok names (mkClass (next_id w) nm (initial_dict w names))
              nm 0 [] eq_refl Hall) as [cls' Hrun].
  rewrite Hrun. simpl. by do 2 eexists.
Qed.

Lemma declare_find w nm names w' cls :
  declare w nm names = Ok (w', cls) -> find_class w' (cls_id cls) = Ok cls.
Proof.
  intros Hd. apply declare_inv in Hd as (Hid & _ & -> & _).
  unfold find_class. simpl. rewrite Hid. by rewrite lookup_insert_eq.
Qed.

(** In a list without repetition every position is the last of its name. *)
Lemma NoDup_not_later (names : list string) (i : nat) n :
  NoDup names -> names !! i = Some n -> n ∉ drop (S i) names.
Proof.
  intros Hnd Hi Hin.
  apply list_elem_of_lookup in Hin as [j Hj].
  rewrite lookup_drop in Hj.
  pose proof (NoDup_lookup _ _ _ _ Hnd Hi Hj). lia.
Qed.

(** ** Reading a declared class *)

Section Declared.

Variables (w : world) (nm : string) (names : list string).
Variables (w' : world) (cls : class_obj).
Hypothesis Hdecl : declare w nm names = Ok (w', cls).

Lemma declared_member_special (i : nat) n :
  names !! i = Some n -> special n = false.
Proof.
  intros Hi. apply declare_inv in Hdecl as (_ & _ & _ & Hall & _).
  rewrite Forall_lookup in Hall. by destruct (Hall i n Hi).
Qed.

(** The attribute a member name is bound to, on the class and on an
    instance: the value made for the last position holding that name. *)
Lemma declared_member (i : nat) n :
  names !! i = Some n -> n ∉ drop (S i) names ->
  class_getattr cls n = Ok (PyEV (mkEV (Z.of_nat i) n nm)) /\
  instance_getattr cls n = Ok (PyEV (mkEV (Z.of_nat i) n nm)).
Proof.
  intros Hi Hlast. pose proof (declared_member_special i n Hi) as Hsp.
  apply declare_inv in Hdecl as (_ & _ & _ & _ & _ & _ & _ & _ & Hmem).
  unfold class_getattr, instance_getattr, mro_lookup.
  rewrite Hsp, (Hmem i n Hi Hlast). done.
Qed.

Lemma declared__values :
  instance_getattr cls "_values" = Ok (PyList (member_values nm 0 names)).
Proof.
  apply declare_inv in Hdecl as (_ & _ & _ & _ & Hv & _).
  unfold instance_getattr, mro_lookup. by rewrite special__values, Hv.
Qed.

Lemma declared_instance :
  "instance" ∉ names ->
  class_getattr cls "instance" = Ok (PyInstance (S (next_id w)) (cls_id cls)).
Proof.
  intros Hin.
  apply declare_inv in Hdecl as (Hid & _ & _ & _ & _ & Hi & _).
  unfold class_getattr, mro_lookup.
  rewrite special_instance, (Hi Hin), Hid. done.
Qed.

Lemma declared__enum_ :
  "_enum_" ∉ names ->
  class_getattr cls "_enum_" = Ok (PyList (PyStr <$> names)) /\
  instance_getattr cls "_enum_" = Ok (PyList (PyStr <$> names)).
Proof.
  intros Hin.
  apply declare_inv in Hdecl as (_ & _ & _ & _ & _ & _ & He & _).
  unfold class_getattr, instance_getattr, mro_lookup.
  rewrite special__enum_, (He Hin). done.
Qed.

(** [cls.name] is the inherited classmethod unless a member took the
    name. *)
Lemma declared_name :
  "name" ∉ names -> class_getattr cls "name" = Ok (PyBoundName (cls_id cls)).
Proof.
  intros Hin.
  apply declare_inv in Hdecl as (_ & _ & _ & _ & _ & _ & _ & Hnone & _).
  unfold class_getattr, mro_lookup.
  rewrite special_name, (Hnone "name" Hin) by done. done.
Qed.

End Declared.

(** ** Searching the two lists *)

Lemma py_eq_int_ev x v e :
  as_int x = Some v -> py_eq x (PyEV e) = (v =? int_value e).
Proof. destruct x; simpl; intros H; inversion H; subst; done. Qed.

Lemma py_eq_ev_int e z : py_eq (PyEV e) (PyInt z) = (int_value e =? z).
Proof. done. Qed.

Lemma existsb_cons {A : Type} (f : A -> bool) (a : A) (l : list A) :
  existsb f (a :: l) = f a || existsb f l.
Proof. reflexivity. Qed.

(** An integer is found among the member values exactly when it is one of
    the positions. *)
Lemma existsb_member_values nm names : forall start x v,
  as_int x = Some v ->
  existsb (py_eq x) (member_values nm start names) =
  (start <=? v) && (v <? start + Z.of_nat (length names)).
Proof.
  induction names as [|n rest IH]; intros start x v Hx; simpl member_values.
  - simpl. rewrite Z.add_0_r. zcases.
  - rewrite existsb_cons, (py_eq_int_ev x v _ Hx), (IH (start + 1) x v Hx).
    simpl int_value. rewrite length_cons, Nat2Z.inj_succ. zcases.
Qed.

(** A string is found among the names exactly when it is one of them. *)
Lemma existsb_names (s : string) (names : list string) :
  existsb (py_eq (PyStr s)) (PyStr <$> names) = bool_decide (s ∈ names).
Proof.
  induction names as [|n rest IH].
  - done.
  - rewrite fmap_cons, existsb_cons, IH.
    change (py_eq (PyStr s) (PyStr n)) with (String.eqb s n).
    destruct (String.eqb_spec s n) as [->|Hne]; simpl.
    + symmetry. apply bool_decide_eq_true. left.
    + apply bool_decide_ext. rewrite elem_of_cons. intuition congruence.
Qed.

(** No integer is a string's equal. *)
Lemma existsb_names_int x v (names : list string) :
  as_int x = Some v -> existsb (py_eq x) (PyStr <$> names) = false.
Proof.
  intros Hx. induction names as [|n rest IH]; [done|].
  rewrite fmap_cons, existsb_cons, IH.
  destruct x; simpl in *; try discriminate; done.
Qed.

(** ** Indexing the list of names *)

Lemma list_getitem_nonneg (names : list string) (i : nat) n :
  names !! i = Some n ->
  list_getitem (PyStr <$> names) (Z.of_nat i) = Ok (PyStr n).
Proof.
  intros Hi. pose proof (lookup_lt_Some _ _ _ Hi) as Hlt.
  unfold list_getitem. rewrite length_fmap.
  destruct (Z.ltb_spec (Z.of_nat i) 0) as [?|_]; [lia|].
  destruct (Z.ltb_spec (Z.of_nat i) 0) as [?|_]; [lia|].
  destruct (Z.leb_spec (Z.of_nat (length names)) (Z.of_nat i)) as [?|_]; [lia|].
  simpl. rewrite Nat2Z.id, list_lookup_fmap, Hi. done.
Qed.

Lemma list_getitem_beyond (l : list pyobj) (z : Z) :
  Z.of_nat (length l) <= z ->
  list_getitem l z = Raise (IndexError "list index out of range").
Proof.
  intros Hz. unfold list_getitem.
  destruct (Z.ltb_spec z 0) as [?|_]; [lia|].
  destruct (Z.ltb_spec z 0) as [?|_]; [lia|].
  destruct (Z.leb_spec (Z.of_nat (length l)) z) as [_|?]; [done|lia].
Qed.

Lemma list_getitem_below (l : list pyobj) (z : Z) :
  z < - Z.of_nat (length l) ->
  list_getitem l z = Raise (IndexError "list index out of range").
Proof.
  intros Hz. unfold list_getitem.
  destruct (Z.ltb_spec z 0) as [_|?]; [|lia].
  destruct (Z.ltb_spec (z + Z.of_nat (length l)) 0) as [_|?]; [done|lia].
Qed.

(** A negative index in range counts from the end. *)
Lemma list_getitem_negative (names : list string) (z : Z) n :
  - Z.of_nat (length names) <= z < 0 ->
  names !! Z.to_nat (z + Z.of_nat (length names)) = Some n ->
  list_getitem (PyStr <$> names) z = Ok (PyStr n).
Proof.
  intros Hz Hn. unfold list_getitem. rewrite length_fmap.
  rewrite (proj2 (Z.ltb_lt z 0)) by lia.
  rewrite (proj2 (Z.ltb_ge (z + Z.of_nat (length names)) 0)) by lia.
  rewrite (proj2 (Z.leb_gt (Z.of_nat (length names)) (z + Z.of_nat (length names))))
    by lia.
  simpl. by rewrite list_lookup_fmap, Hn.
Qed.

Lemma list_getitem_nil (z : Z) :
  list_getitem [] z = Raise (IndexError "list index out of range").
Proof.
  destruct (Z.lt_ge_cases z 0).
  - apply list_getitem_below. simpl. lia.
  - apply list_getitem_beyond. simpl. lia.
Qed.

(** ** Membership tests and name lookup on a declared class *)

Section Operations.

Variables (w : world) (nm : string) (names : list string).
Variables (w' : world) (cls : class_obj).
Hypothesis Hdecl : declare w nm names = Ok (w', cls).

(** The test on an instance of the class, integer probe. *)
Lemma instance_contains_int x v :
  as_int x = Some v ->
  Enumeration___contains__ cls x = Ok (is_member_value names v).
Proof using Hdecl.
  intros Hx. unfold Enumeration___contains__.
  rewrite (declared__values _ _ _ _ _ Hdecl).
  destruct x; simpl in Hx; try discriminate; unfold bind, seq_contains;
    by rewrite (existsb_member_values nm names 0 _ v).
Qed.

(** The test on an instance of the class, string probe. *)
Lemma instance_contains_str s :
  "_enum_" ∉ names ->
  Enumeration___contains__ cls (PyStr s) = Ok (bool_decide (s ∈ names)).
Proof using Hdecl.
  intros He. unfold Enumeration___contains__.
  destruct (declared__enum_ _ _ _ _ _ Hdecl He) as [_ ->].
  unfold bind, seq_contains. by rewrite existsb_names.
Qed.

Lemma py_in_instance oid x :
  py_in w' x (PyInstance oid (cls_id cls)) = Enumeration___contains__ cls x.
Proof using Hdecl.
  unfold py_in. by rewrite (declare_find _ _ _ _ _ Hdecl).
Qed.

(** The test on the class goes through the singleton it finds under
    [instance]. *)
Lemma py_in_class x :
  "instance" ∉ names ->
  py_in w' x (PyClass (cls_id cls)) = Enumeration___contains__ cls x.
Proof using Hdecl.
  intros Hi. unfold py_in, Meta___contains__.
  rewrite (declare_find _ _ _ _ _ Hdecl). simpl.
  rewrite (declared_instance _ _ _ _ _ Hdecl Hi). simpl.
  by rewrite (declare_find _ _ _ _ _ Hdecl).
Qed.

(** [cls.name(x)] indexes the list of names. *)
Lemma call_name_getitem x v :
  "name" ∉ names -> "_enum_" ∉ names -> as_int x = Some v ->
  call_name w' cls x = list_getitem (PyStr <$> names) v.
Proof using Hdecl.
  intros Hn He Hx. unfold call_name.
  rewrite (declared_name _ _ _ _ _ Hdecl Hn). simpl.
  rewrite (declare_find _ _ _ _ _ Hdecl). simpl.
  unfold Enumeration_name.
  destruct (declared__enum_ _ _ _ _ _ Hdecl He) as [-> _]. simpl.
  by rewrite Hx.
Qed.

(** [cls()] hands out what the class holds under [instance], and leaves
    the world as it is. *)
Lemma construct_singleton :
  "instance" ∉ names ->
  construct w' cls = Ok (w', PyInstance (S (next_id w)) (cls_id cls)).
Proof using Hdecl.
  intros Hi. unfold construct, Enumeration___new__.
  by rewrite (declared_instance _ _ _ _ _ Hdecl Hi).
Qed.

End Operations.

(** The two hypotheses met most often, decided on concrete lists. *)
Lemma not_elem_of_decide (s : string) (names : list string) :
  bool_decide (s ∈ names) = false -> s ∉ names.
Proof. intros H Hin. apply bool_decide_eq_false in H. by apply H. Qed.

Lemma NoDup_decide (names : list string) :
  bool_decide (NoDup names) = true -> NoDup names.
Proof. apply bool_decide_eq_true. Qed.

Lemma EnumTest_declared :
  declare world0 "EnumTest" EnumTest_names = Ok (EnumTest_world, EnumTest).
Proof. vm_compute. reflexivity. Qed.

(** [world0] is what the metaclass makes of the body of [Enumeration]
    itself, run in the empty world. *)
Example world0_from_class_body :
  (let (w, cls) :=
     Meta___new__ (mkWorld 0 ∅) "Enumeration"
       (<["name" := PyClassMethod]>
          (<["_enum_" := PyList []]>
             (<["_Enumeration__MetaEnumeration" := PyMetaEnumeration]> ∅))) in
   r <- Meta___init__ w cls "Enumeration" ;;
   Ok (store_class (fst r) (snd r)))
  = Ok world0.
Proof. vm_compute. reflexivity. Qed.

(** What [name] does on every integer, for members that leave [name] and
    [_enum_] alone: positions answer their name, an index past either end
    raises, and a negative index within reach counts from the end. *)
Lemma name_lookup w nm names w' cls :
  declare w nm names = Ok (w', cls) ->
  "name" ∉ names -> "_enum_" ∉ names ->
  (forall (i : nat) n, names !! i = Some n ->
     call_name w' cls (PyInt (Z.of_nat i)) = Ok (PyStr n)) /\
  (forall v, Z.of_nat (length names) <= v ->
     call_name w' cls (PyInt v) = Raise (IndexError "list index out of range")) /\
  (forall v, v < - Z.of_nat (length names) ->
     call_name w' cls (PyInt v) = Raise (IndexError "list index out of range")) /\
  (forall v n, - Z.of_nat (length names) <= v < 0 ->
     names !! Z.to_nat (v + Z.of_nat (length names)) = Some n ->
     call_name w' cls (PyInt v) = Ok (PyStr n)).
Proof.
  intros Hdecl Hn He.
  assert (Hget : forall v, call_name w' cls (PyInt v)
                           = list_getitem (PyStr <$> names) v).
  { intros v. by apply (call_name_getitem _ _ _ _ _ Hdecl). }
  split; [|split; [|split]].
  - intros i n Hi. rewrite Hget. by apply list_getitem_nonneg.
  - intros v Hv. rewrite Hget. apply list_getitem_beyond. by rewrite length_fmap.
  - intros v Hv. rewrite Hget. apply list_getitem_below. by rewrite length_fmap.
  - intros v n Hv Hi. rewrite Hget. by apply list_getitem_negative.
Qed.

(** ** The claims *)

(** C1.  [name(i)] is read off the list of names with Python's indexing, so
    a negative index does not fail: on the doctest's enumeration
    [EnumTest.name(-1)] answers ['oof'], the last name, although [-1] is not
    a member ([-1 in EnumTest] is false) and the docstring of [name]
    promises [IndexError] for a value that is not a member. *)
Theorem name_negative_index_wraps :
  call_name EnumTest_world EnumTest (PyInt (-1)) = Ok (PyStr "oof") /\
  call_name EnumTest_world EnumTest (PyInt (-4)) = Ok (PyStr "foo") /\
  py_in EnumTest_world (PyInt (-1)) (PyClass (cls_id EnumTest)) = Ok false.
Proof. vm_compute. done. Qed.

(** C2, as stated, fails on the singleton instance: declare an enumeration
    with the members [instance] and [a].  The loop of [__init__] rebinds
    [cls.instance] to the first member value, so the object [E()] hands out
    is [<E: instance=0>], and reading [a] on it raises instead of giving the
    member [a]. *)
Lemma member_attribute_singleton_called_instance :
  exists w cls singleton,
    declare world0 "E" ["instance"; "a"] = Ok (w, cls) /\
    py_getattr w (PyClass (cls_id cls)) "a" = Ok (PyEV (mkEV 1 "a" "E")) /\
    construct w cls = Ok (w, singleton) /\
    py_getattr w singleton "a" =
    Raise (AttributeError "'_EnumerationValue' object has no attribute 'a'").
Proof.
  destruct (declare world0 "E" ["instance"; "a"]) as [[w cls]|e] eqn:Hd;
    [|vm_compute in Hd; discriminate].
  vm_compute in Hd. inversion Hd; subst.
  do 3 eexists. split; [reflexivity|].
  split; [vm_compute; reflexivity|].
  split; vm_compute; reflexivity.
Qed.

(** C2, amended.  For an enumeration declared with the distinct members
    [n0 .. nk], the attribute [n_i] read on the type is an
    [_EnumerationValue] whose integer value is [i], whose [name] is [n_i]
    and whose owning-type name [_enum] is the name of the declaring type.
    Read on the singleton instance, the object the type hands out when it is
    constructed, the attribute is the same value, provided no member is
    called [instance] and no member name starts with two underscores. *)
Theorem member_attribute_value w nm names w' cls (i : nat) n :
  declare w nm names = Ok (w', cls) ->
  NoDup names ->
  names !! i = Some n ->
  exists ev,
    int_value ev = Z.of_nat i /\
    name ev = n /\
    _enum ev = cls_name cls /\
    cls_name cls = nm /\
    py_getattr w' (PyClass (cls_id cls)) n = Ok (PyEV ev) /\
    (Forall (fun m => special m = false) names -> "instance" ∉ names ->
     exists singleton,
       construct w' cls = Ok (w', singleton) /\
       py_getattr w' singleton n = Ok (PyEV ev)).
Proof.
  intros Hdecl Hnd Hi.
  destruct (declared_member _ _ _ _ _ Hdecl i n Hi (NoDup_not_later _ _ _ Hnd Hi))
    as [Hc Hinst].
  pose proof (declare_find _ _ _ _ _ Hdecl) as Hfind.
  pose proof (declare_inv _ _ _ _ _ Hdecl) as (_ & Hnm & _).
  exists (mkEV (Z.of_nat i) n nm). simpl.
  rewrite Hfind. simpl.
  split; [done|]. split; [done|]. split; [done|]. split; [done|].
  split; [done|].
  intros _ Hno. exists (PyInstance (S (next_id w)) (cls_id cls)).
  split; [by apply (construct_singleton _ _ _ _ _ Hdecl)|].
  simpl. rewrite Hfind. done.
Qed.

Lemma member_attribute_value_witness :
  declare world0 "EnumTest" EnumTest_names = Ok (EnumTest_world, EnumTest) /\
  NoDup EnumTest_names /\
  EnumTest_names !! 2%nat = Some "rab" /\
  exists ev,
    int_value ev = 2 /\
    name ev = "rab" /\
    _enum ev = cls_name EnumTest /\
    cls_name EnumTest = "EnumTest" /\
    py_getattr EnumTest_world (PyClass (cls_id EnumTest)) "rab" = Ok (PyEV ev) /\
    (Forall (fun m => special m = false) EnumTest_names -> "instance" ∉ EnumTest_names ->
     exists singleton,
       construct EnumTest_world EnumTest = Ok (EnumTest_world, singleton) /\
       py_getattr EnumTest_world singleton "rab" = Ok (PyEV ev)).
Proof.
  split; [vm_compute; reflexivity|].
  split; [apply NoDup_decide; vm_compute; reflexivity|].
  split; [reflexivity|].
  apply (member_attribute_value world0 "EnumTest" EnumTest_names
           EnumTest_world EnumTest 2 "rab").
  - vm_compute; reflexivity.
  - apply NoDup_decide; vm_compute; reflexivity.
  - reflexivity.
Defined.

(** C3, as stated, fails: declare an enumeration whose only member is called
    [instance].  The loop of [__init__] rebinds [cls.instance] to the member
    value, and [0 in E], which asks [cls.instance.__contains__(0)], raises
    instead of answering true. *)
Lemma int_membership_member_called_instance :
  exists w cls,
    declare world0 "E" ["instance"] = Ok (w, cls) /\
    is_member_value ["instance"] 0 = true /\
    py_in w (PyInt 0) (PyClass (cls_id cls)) =
    Raise (AttributeError
             "'_EnumerationValue' object has no attribute '__contains__'").
Proof.
  destruct (declare world0 "E" ["instance"]) as [[w cls]|e] eqn:Hd;
    [|vm_compute in Hd; discriminate].
  exists w, cls. split; [done|]. split; [done|].
  vm_compute in Hd. inversion Hd; subst. vm_compute. reflexivity.
Qed.

(** C3, amended.  For an enumeration declared with members [n0 .. nk], none
    of them called [instance] and none with a name that starts with two
    underscores, and an integer probe [v] (a plain integer or an enumeration
    value), [v in enumerationType] is true exactly when [0 <= v <= k] and
    false for every other integer; the test on the singleton instance
    answers the same. *)
Theorem int_membership w nm names w' cls x v :
  declare w nm names = Ok (w', cls) ->
  Forall (fun m => special m = false) names ->
  "instance" ∉ names ->
  as_int x = Some v ->
  exists singleton,
    construct w' cls = Ok (w', singleton) /\
    py_in w' x (PyClass (cls_id cls)) = Ok (is_member_value names v) /\
    py_in w' x singleton = Ok (is_member_value names v).
Proof.
  intros Hdecl _ Hi Hx.
  exists (PyInstance (S (next_id w)) (cls_id cls)).
  split; [by apply (construct_singleton _ _ _ _ _ Hdecl)|].
  split.
  - rewrite (py_in_class _ _ _ _ _ Hdecl x Hi).
    by apply (instance_contains_int _ _ _ _ _ Hdecl).
  - rewrite (py_in_instance _ _ _ _ _ Hdecl).
    by apply (instance_contains_int _ _ _ _ _ Hdecl).
Qed.

Lemma int_membership_witness :
  declare world0 "EnumTest" EnumTest_names = Ok (EnumTest_world, EnumTest) /\
  Forall (fun m => special m = false) EnumTest_names /\
  ("instance" ∉ EnumTest_names) /\
  as_int (PyInt 3) = Some 3 /\
  exists singleton,
    construct EnumTest_world EnumTest = Ok (EnumTest_world, singleton) /\
    py_in EnumTest_world (PyInt 3) (PyClass (cls_id EnumTest)) = Ok true /\
    py_in EnumTest_world (PyInt 3) singleton = Ok true.
Proof.
  split; [vm_compute; reflexivity|].
  split; [repeat constructor|].
  split; [apply not_elem_of_decide; vm_compute; reflexivity|].
  split; [reflexivity|].
  apply (int_membership world0 "EnumTest" EnumTest_names
           EnumTest_world EnumTest (PyInt 3) 3).
  - vm_compute; reflexivity.
  - repeat constructor.
  - apply not_elem_of_decide; vm_compute; reflexivity.
  - reflexivity.
Defined.

(** C4, as stated, fails: declare an enumeration whose only member is called
    [_enum_].  The loop of [__init__] rebinds [cls._enum_] to the member
    value, and the string test, which searches [self._enum_], raises on the
    type and on the singleton alike instead of answering true for the
    declared name. *)
Lemma str_membership_member_called__enum_ :
  exists w cls inst,
    declare world0 "E" ["_enum_"] = Ok (w, cls) /\
    construct w cls = Ok (w, inst) /\
    py_in w (PyStr "_enum_") (PyClass (cls_id cls)) =
    Raise (TypeError "argument of type '_EnumerationValue' is not iterable") /\
    py_in w (PyStr "_enum_") inst =
    Raise (TypeError "argument of type '_EnumerationValue' is not iterable").
Proof.
  destruct (declare world0 "E" ["_enum_"]) as [[w cls]|e] eqn:Hd;
    [|vm_compute in Hd; discriminate].
  vm_compute in Hd. inversion Hd; subst.
  do 3 eexists. split; [reflexivity|].
  split; [vm_compute; reflexivity|].
  split; vm_compute; reflexivity.
Qed.

(** C4, amended.  For an enumeration declared with members none of which is
    called [instance] or [_enum_] or has a name that starts with two
    underscores, the string test on the type and the test on the singleton
    instance answer the same for every string: true when it is a declared
    member name, false when it is not. *)
Theorem str_membership w nm names w' cls s :
  declare w nm names = Ok (w', cls) ->
  Forall (fun m => special m = false) names ->
  "instance" ∉ names ->
  "_enum_" ∉ names ->
  exists singleton,
    construct w' cls = Ok (w', singleton) /\
    py_in w' (PyStr s) (PyClass (cls_id cls)) = Ok (bool_decide (s ∈ names)) /\
    py_in w' (PyStr s) singleton = Ok (bool_decide (s ∈ names)).
Proof.
  intros Hdecl _ Hi He.
  exists (PyInstance (S (next_id w)) (cls_id cls)).
  split; [by apply (construct_singleton _ _ _ _ _ Hdecl)|].
  rewrite (py_in_class _ _ _ _ _ Hdecl _ Hi), (py_in_instance _ _ _ _ _ Hdecl).
  split; by apply (instance_contains_str _ _ _ _ _ Hdecl).
Qed.

Lemma str_membership_witness :
  declare world0 "EnumTest" EnumTest_names = Ok (EnumTest_world, EnumTest) /\
  Forall (fun m => special m = false) EnumTest_names /\
  ("instance" ∉ EnumTest_names) /\
  ("_enum_" ∉ EnumTest_names) /\
  exists singleton,
    construct EnumTest_world EnumTest = Ok (EnumTest_world, singleton) /\
    py_in EnumTest_world (PyStr "foo") (PyClass (cls_id EnumTest)) = Ok true /\
    py_in EnumTest_world (PyStr "foo") singleton = Ok true.
Proof.
  split; [vm_compute; reflexivity|].
  split; [repeat constructor|].
  split; [apply not_elem_of_decide; vm_compute; reflexivity|].
  split; [apply not_elem_of_decide; vm_compute; reflexivity|].
  apply (str_membership world0 "EnumTest" EnumTest_names
           EnumTest_world EnumTest "foo").
  - vm_compute; reflexivity.
  - repeat constructor.
  - apply not_elem_of_decide; vm_compute; reflexivity.
  - apply not_elem_of_decide; vm_compute; reflexivity.
Defined.

(** C5, as stated, fails: declare an enumeration whose only member is called
    [instance].  [E()] returns [cls.instance], which the loop of [__init__]
    has rebound: the call hands out the member value [<E: instance=0>], not
    the instance of [E] made at declaration time; and for two such types the
    objects handed out compare equal. *)
Lemma construct_member_called_instance :
  exists w1 c1 w2 c2,
    declare world0 "E" ["instance"] = Ok (w1, c1) /\
    declare w1 "F" ["instance"] = Ok (w2, c2) /\
    construct w2 c1 = Ok (w2, PyEV (mkEV 0 "instance" "E")) /\
    construct w2 c2 = Ok (w2, PyEV (mkEV 0 "instance" "F")) /\
    is_instance_of (PyEV (mkEV 0 "instance" "E")) (cls_id c1) = false /\
    py_eq (PyEV (mkEV 0 "instance" "E")) (PyEV (mkEV 0 "instance" "F")) = true.
Proof.
  destruct (declare world0 "E" ["instance"]) as [[w1 c1]|e] eqn:Hd1;
    [|vm_compute in Hd1; discriminate].
  vm_compute in Hd1. inversion Hd1; subst.
  do 4 eexists. split; [reflexivity|].
  split; [vm_compute; reflexivity|].
  repeat split; vm_compute; reflexivity.
Qed.

(** C5, amended.  For an enumeration type declared with members none of
    which is called [instance] or has a name that starts with two
    underscores, constructing an instance any number of times
    returns, every time, the one instance of the type made at declaration
    time (its identity was drawn by the declaration), and creates nothing;
    and of two such types declared one after the other, even with the same
    member list, each hands out its own object: the two are instances of
    different types, neither is an instance of the other type, and they do
    not compare equal. *)
Theorem construct_returns_singleton w nm1 names1 w1 c1 nm2 names2 w2 c2 :
  declare w nm1 names1 = Ok (w1, c1) ->
  declare w1 nm2 names2 = Ok (w2, c2) ->
  Forall (fun m => special m = false) names1 ->
  Forall (fun m => special m = false) names2 ->
  "instance" ∉ names1 ->
  "instance" ∉ names2 ->
  exists oid1 oid2,
    (next_id w <= oid1 < next_id w1)%nat /\
    (next_id w1 <= oid2 < next_id w2)%nat /\
    (forall n, construct_times n w1 c1
               = Ok (w1, replicate n (PyInstance oid1 (cls_id c1)))) /\
    (forall n, construct_times n w2 c1
               = Ok (w2, replicate n (PyInstance oid1 (cls_id c1)))) /\
    (forall n, construct_times n w2 c2
               = Ok (w2, replicate n (PyInstance oid2 (cls_id c2)))) /\
    find_class w2 (cls_id c1) = Ok c1 /\
    find_class w2 (cls_id c2) = Ok c2 /\
    cls_id c1 <> cls_id c2 /\
    py_eq (PyInstance oid1 (cls_id c1)) (PyInstance oid2 (cls_id c2)) = false /\
    is_instance_of (PyInstance oid1 (cls_id c1)) (cls_id c2) = false /\
    is_instance_of (PyInstance oid2 (cls_id c2)) (cls_id c1) = false.
Proof.
  intros Hd1 Hd2 _ _ Hi1 Hi2.
  pose proof (construct_singleton _ _ _ _ _ Hd2 Hi2) as Hc2.
  pose proof (declared_instance _ _ _ _ _ Hd1 Hi1) as Hinst1.
  pose proof (declare_find _ _ _ _ _ Hd1) as Hf1.
  pose proof (declare_find _ _ _ _ _ Hd2) as Hf2.
  pose proof (declare_inv _ _ _ _ _ Hd1) as (Hid1 & _ & Hw1 & _).
  pose proof (declare_inv _ _ _ _ _ Hd2) as (Hid2 & _ & Hw2 & _).
  assert (Hn1 : next_id w1 = S (S (next_id w))) by (by rewrite Hw1).
  assert (Hn2 : next_id w2 = S (S (next_id w1))) by (by rewrite Hw2).
  assert (Hc1 : forall w0, construct w0 c1
                           = Ok (w0, PyInstance (S (next_id w)) (cls_id c1))).
  { intros w0. unfold construct, Enumeration___new__. by rewrite Hinst1. }
  assert (Hrep : forall w0 c o, construct w0 c = Ok (w0, o) ->
            forall n, construct_times n w0 c = Ok (w0, replicate n o)).
  { intros w0 c o Hc n. induction n as [|n IH]; [done|].
    simpl. rewrite Hc. simpl. rewrite IH. done. }
  exists (S (next_id w)), (S (next_id w1)).
  split; [lia|]. split; [lia|].
  split; [by apply Hrep|].
  split; [by apply Hrep|].
  split; [by apply Hrep|].
  split.
  { unfold find_class in *. rewrite Hw2. simpl.
    rewrite lookup_insert_ne by (rewrite Hid1; lia). done. }
  split; [done|].
  split; [rewrite Hid1, Hid2; lia|].
  simpl. rewrite Hid1, Hid2.
  repeat split; apply Nat.eqb_neq; lia.
Qed.

Lemma construct_returns_singleton_witness :
  declare world0 "EnumTest" EnumTest_names = Ok (EnumTest_world, EnumTest) /\
  declare EnumTest_world "EnumTest2" EnumTest_names
  = Ok (EnumTest2_world, EnumTest2) /\
  Forall (fun m => special m = false) EnumTest_names /\
  ("instance" ∉ EnumTest_names) /\
  exists oid1 oid2,
    (next_id world0 <= oid1 < next_id EnumTest_world)%nat /\
    (next_id EnumTest_world <= oid2 < next_id EnumTest2_world)%nat /\
    (forall n, construct_times n EnumTest_world EnumTest
               = Ok (EnumTest_world, replicate n (PyInstance oid1 (cls_id EnumTest)))) /\
    (forall n, construct_times n EnumTest2_world EnumTest
               = Ok (EnumTest2_world, replicate n (PyInstance oid1 (cls_id EnumTest)))) /\
    (forall n, construct_times n EnumTest2_world EnumTest2
               = Ok (EnumTest2_world, replicate n (PyInstance oid2 (cls_id EnumTest2)))) /\
    find_class EnumTest2_world (cls_id EnumTest) = Ok EnumTest /\
    find_class EnumTest2_world (cls_id EnumTest2) = Ok EnumTest2 /\
    cls_id EnumTest <> cls_id EnumTest2 /\
    py_eq (PyInstance oid1 (cls_id EnumTest)) (PyInstance oid2 (cls_id EnumTest2))
    = false /\
    is_instance_of (PyInstance oid1 (cls_id EnumTest)) (cls_id EnumTest2) = false /\
    is_instance_of (PyInstance oid2 (cls_id EnumTest2)) (cls_id EnumTest) = false.
Proof.
  split; [vm_compute; reflexivity|].
  split; [vm_compute; reflexivity|].
  split; [repeat constructor|].
  split; [apply not_elem_of_decide; vm_compute; reflexivity|].
  apply (construct_returns_singleton world0 "EnumTest" EnumTest_names
           EnumTest_world EnumTest "EnumTest2" EnumTest_names
           EnumTest2_world EnumTest2).
  - vm_compute; reflexivity.
  - vm_compute; reflexivity.
  - repeat constructor.
  - repeat constructor.
  - apply not_elem_of_decide; vm_compute; reflexivity.
  - apply not_elem_of_decide; vm_compute; reflexivity.
Defined.

(** Every name of the list has a last position. *)
Lemma last_occurrence (names : list string) n :
  n ∈ names -> exists i : nat, names !! i = Some n /\ n ∉ drop (S i) names.
Proof.
  induction names as [|a rest IH]; intros Hin; [by apply elem_of_nil in Hin|].
  destruct (decide (n ∈ rest)) as [Hrest|Hrest].
  - destruct (IH Hrest) as (i & Hi & Hlast). by exists (S i).
  - apply elem_of_cons in Hin as [->|Hin]; [|done].
    exists 0%nat. split; [done|]. simpl. by rewrite drop_0.
Qed.

(** C6, as stated, fails: an instance takes a new [__class__].  With the
    doctest's [EnumTest] and the [ET] of [_test] declared, assigning [ET] to
    the [__class__] of the singleton of [EnumTest] goes through without an
    error, and from then on [EnumTest()] hands out an instance of [ET]. *)
Lemma assignment_to_dunder_class_succeeds :
  exists w' cls',
    declare world0 "EnumTest" EnumTest_names = Ok (EnumTest_world, EnumTest) /\
    declare EnumTest_world "ET" ET_names = Ok (ET_world, ET) /\
    construct ET_world EnumTest = Ok (ET_world, PyInstance 3 (cls_id EnumTest)) /\
    py_setattr ET_world (PyInstance 3 (cls_id EnumTest)) "__class__"
      (PyClass (cls_id ET)) = (w', Ok tt) /\
    find_class w' (cls_id EnumTest) = Ok cls' /\
    construct w' cls' = Ok (w', PyInstance 3 (cls_id ET)) /\
    cls_id ET <> cls_id EnumTest.
Proof.
  eexists (retype_world 3 (cls_id ET) ET_world), _.
  split; [vm_compute; reflexivity|].
  split; [vm_compute; reflexivity|].
  split; [vm_compute; reflexivity|].
  split; [vm_compute; reflexivity|].
  split; [vm_compute; reflexivity|].
  split; [vm_compute; reflexivity|].
  vm_compute. discriminate.
Qed.

(** C6, amended.  After the declaration of an enumeration whose member names
    do not start with two underscores, every attribute assignment on an
    instance of it (its singleton among them) raises and changes nothing,
    with one exception: a class assigned to [__class__].  A declared member
    name is "read-only", so is every other attribute the type has; a name
    the type does not have is "no attribute"; both are [AttributeError];
    an object that is not a class assigned to [__class__] is [TypeError].
    On an [_EnumerationValue] every assignment raises [AttributeError],
    whatever the name, [name] and [__class__] included. *)
Theorem attribute_assignment_fails w nm names w' cls :
  declare w nm names = Ok (w', cls) ->
  Forall (fun m => special m = false) names ->
  (forall oid n v, n ∈ names ->
     py_setattr w' (PyInstance oid (cls_id cls)) n v =
     (w', Raise (AttributeError
                   ("'" ++ nm ++ "' object attribute '" ++ n
                    ++ "' is read-only")%string))) /\
  (forall oid attr v, special attr = false -> mro_lookup cls attr = None ->
     py_setattr w' (PyInstance oid (cls_id cls)) attr v =
     (w', Raise (AttributeError
                   ("'" ++ nm ++ "' object has no attribute '" ++ attr
                    ++ "'")%string))) /\
  (forall oid attr v, attr <> "__class__" ->
     exists msg,
       py_setattr w' (PyInstance oid (cls_id cls)) attr v =
       (w', Raise (AttributeError msg))) /\
  (forall oid v, (forall cid, v <> PyClass cid) ->
     exists msg,
       py_setattr w' (PyInstance oid (cls_id cls)) "__class__" v =
       (w', Raise (TypeError msg))) /\
  (forall ev attr v,
     py_setattr w' (PyEV ev) attr v =
     (w', Raise (AttributeError
                   ("'_EnumerationValue' object attribute '" ++ attr
                    ++ "' is read-only")%string))).
Proof.
  intros Hdecl _.
  pose proof (declare_find _ _ _ _ _ Hdecl) as Hfind.
  pose proof (declare_slotless _ _ _ _ _ Hdecl) as Hslots.
  pose proof (declare_inv _ _ _ _ _ Hdecl) as (_ & Hnm & _ & _ & _ & _ & _ & _ & Hmem).
  assert (Hset : forall oid attr v,
            py_setattr w' (PyInstance oid (cls_id cls)) attr v
            = instance_setattr w' cls oid attr v).
  { intros oid attr v. simpl. by rewrite Hfind. }
  split; [|split; [|split; [|split]]].
  - intros oid n v Hin.
    destruct (last_occurrence names n Hin) as (i & Hi & Hlast).
    pose proof (declared_member_special _ _ _ _ _ Hdecl i n Hi) as Hsp.
    rewrite Hset. unfold instance_setattr, mro_lookup. rewrite Hslots. simpl.
    destruct (String.eqb_spec n "__class__") as [->|_]; [discriminate|].
    rewrite (Hmem i n Hi Hlast), Hnm. done.
  - intros oid attr v Hsp Hnone.
    rewrite Hset. unfold instance_setattr. rewrite Hslots. simpl.
    destruct (String.eqb_spec attr "__class__") as [->|_]; [discriminate|].
    rewrite Hnone, Hnm.
    rewrite bool_decide_eq_false_2; [done|].
    intros Hin. unfold inherited_special in Hin.
    repeat (apply elem_of_cons in Hin as [->|Hin]; [discriminate|]).
    by apply elem_of_nil in Hin.
  - intros oid attr v Hne.
    rewrite Hset. unfold instance_setattr. rewrite Hslots. simpl.
    destruct (String.eqb_spec attr "__class__") as [->|_]; [done|].
    destruct (mro_lookup cls attr), (bool_decide (attr ∈ inherited_special));
      by eexists.
  - intros oid v Hv.
    rewrite Hset. unfold instance_setattr. rewrite Hslots. simpl.
    destruct v; simpl; try by eexists.
    by destruct (Hv cid).
  - done.
Qed.

Lemma attribute_assignment_fails_witness :
  declare world0 "EnumTest" EnumTest_names = Ok (EnumTest_world, EnumTest) /\
  Forall (fun m => special m = false) EnumTest_names /\
  py_setattr EnumTest_world (PyInstance 3 (cls_id EnumTest)) "foo" (PyInt 6) =
  (EnumTest_world,
   Raise (AttributeError "'EnumTest' object attribute 'foo' is read-only")) /\
  py_setattr EnumTest_world (PyInstance 3 (cls_id EnumTest)) "zzz" (PyInt 6) =
  (EnumTest_world,
   Raise (AttributeError "'EnumTest' object has no attribute 'zzz'")) /\
  py_setattr EnumTest_world (PyEV (mkEV 3 "oof" "EnumTest")) "name" (PyStr "foo") =
  (EnumTest_world,
   Raise (AttributeError "'_EnumerationValue' object attribute 'name' is read-only")).
Proof.
  split; [vm_compute; reflexivity|].
  split; [repeat constructor|].
  destruct (attribute_assignment_fails world0 "EnumTest" EnumTest_names
              EnumTest_world EnumTest) as (Hmember & Hunknown & _ & _ & Hvalue).
  - vm_compute; reflexivity.
  - repeat constructor.
  - split; [|split].
    + apply (Hmember 3%nat "foo" (PyInt 6)).
      apply (bool_decide_unpack _). vm_compute. exact I.
    + apply (Hunknown 3%nat "zzz" (PyInt 6)); reflexivity.
    + apply (Hvalue (mkEV 3 "oof" "EnumTest") "name" (PyStr "foo")).
Defined.

(** C7.  A rejected write is atomic.  The statement [obj.attr = value] runs
    the [__setattr__] of the object's type, which answers with the world it
    leaves behind.  Assignments can change the world (a class given to an
    instance's [__class__], an attribute bound on a type); but whenever the
    statement raises, on an [_EnumerationValue], on an enumeration instance
    or anywhere else, the world it leaves is the one it started from: every
    class object, hence every member list [_enum_], every binding of a name
    to its value object and every value object's integer, [name] and
    [_enum], is what it was. *)
Theorem rejected_write_changes_nothing w obj attr v w' e :
  py_setattr w obj attr v = (w', Raise e) ->
  python_exception e = true ->
  w' = w.
Proof.
  intros H He. destruct obj; simpl in H; try (inversion H; done).
  - destruct (find_class w cid) as [cls|e0]; [|inversion H; done].
    unfold instance_setattr in H.
    destruct (slotless cls); simpl in H; [|inversion H; done].
    destruct (String.eqb attr "__class__").
    + unfold object_set_class in H.
      destruct v; try (inversion H; done).
      destruct (classes w !! cid0) as [c|]; [|inversion H; done].
      destruct (slotless c); inversion H; done.
    + destruct (mro_lookup cls attr), (bool_decide (attr ∈ inherited_special));
        inversion H; done.
  - destruct (Nat.eqb cid Enumeration_id); [inversion H; done|].
    destruct (bind (find_class w cid) _); inversion H; done.
Qed.

Lemma rejected_write_changes_nothing_witness :
  py_setattr EnumTest_world (PyInstance 3 (cls_id EnumTest)) "__class__" (PyInt 6) =
  (EnumTest_world,
   Raise (TypeError "__class__ must be set to new-style class, not 'int' object")) /\
  python_exception
    (TypeError "__class__ must be set to new-style class, not 'int' object") = true /\
  EnumTest_world = EnumTest_world.
Proof.
  split; [vm_compute; reflexivity|].
  split; [reflexivity|].
  apply (rejected_write_changes_nothing EnumTest_world
           (PyInstance 3 (cls_id EnumTest)) "__class__" (PyInt 6) EnumTest_world
           (TypeError "__class__ must be set to new-style class, not 'int' object")).
  - vm_compute; reflexivity.
  - reflexivity.
Defined.

(** C8.  Enumeration values are integers: for an enumeration declared with
    the distinct members [n0 .. nk], the member [n_i] compares equal to the
    plain integer [i] (the member at index 0 equals 0), adding an integer to
    it gives the integer sum, and for the next member [n_(i+1)],
    [n_i + 1 == n_(i+1)]. *)
Theorem member_is_integer w nm names w' cls (i : nat) n m :
  declare w nm names = Ok (w', cls) ->
  NoDup names ->
  names !! i = Some n ->
  py_getattr w' (PyClass (cls_id cls)) n = Ok m ->
  py_eq m (PyInt (Z.of_nat i)) = true /\
  py_eq (PyInt (Z.of_nat i)) m = true /\
  (forall z, py_add m (PyInt z) = Ok (PyInt (Z.of_nat i + z))) /\
  (forall n' m',
     names !! S i = Some n' ->
     py_getattr w' (PyClass (cls_id cls)) n' = Ok m' ->
     exists sum, py_add m (PyInt 1) = Ok sum /\ py_eq sum m' = true).
Proof.
  intros Hdecl Hnd Hi Hm.
  pose proof (declare_find _ _ _ _ _ Hdecl) as Hfind.
  simpl in Hm. rewrite Hfind in Hm. simpl in Hm.
  destruct (declared_member _ _ _ _ _ Hdecl i n Hi (NoDup_not_later _ _ _ Hnd Hi))
    as [Hc _].
  rewrite Hc in Hm. inversion Hm; subst m; clear Hm.
  split; [simpl; apply Z.eqb_refl|].
  split; [simpl; apply Z.eqb_refl|].
  split; [done|].
  intros n' m' Hi' Hm'.
  simpl in Hm'. rewrite Hfind in Hm'. simpl in Hm'.
  destruct (declared_member _ _ _ _ _ Hdecl (S i) n' Hi'
              (NoDup_not_later _ _ _ Hnd Hi')) as [Hc' _].
  rewrite Hc' in Hm'. inversion Hm'; subst m'; clear Hm'.
  eexists. split; [reflexivity|]. simpl. apply Z.eqb_eq. lia.
Qed.

Lemma member_is_integer_witness :
  declare world0 "EnumTest" EnumTest_names = Ok (EnumTest_world, EnumTest) /\
  NoDup EnumTest_names /\
  EnumTest_names !! 0%nat = Some "foo" /\
  py_getattr EnumTest_world (PyClass (cls_id EnumTest)) "foo"
  = Ok (PyEV (mkEV 0 "foo" "EnumTest")) /\
  py_eq (PyEV (mkEV 0 "foo" "EnumTest")) (PyInt 0) = true /\
  py_eq (PyInt 0) (PyEV (mkEV 0 "foo" "EnumTest")) = true /\
  (forall z, py_add (PyEV (mkEV 0 "foo" "EnumTest")) (PyInt z) = Ok (PyInt (0 + z))) /\
  (forall n' m',
     EnumTest_names !! 1%nat = Some n' ->
     py_getattr EnumTest_world (PyClass (cls_id EnumTest)) n' = Ok m' ->
     exists sum,
       py_add (PyEV (mkEV 0 "foo" "EnumTest")) (PyInt 1) = Ok sum /\
       py_eq sum m' = true).
Proof.
  split; [vm_compute; reflexivity|].
  split; [apply NoDup_decide; vm_compute; reflexivity|].
  split; [reflexivity|].
  split; [vm_compute; reflexivity|].
  apply (member_is_integer world0 "EnumTest" EnumTest_names
           EnumTest_world EnumTest 0 "foo" (PyEV (mkEV 0 "foo" "EnumTest"))).
  - vm_compute; reflexivity.
  - apply NoDup_decide; vm_compute; reflexivity.
  - reflexivity.
  - vm_compute; reflexivity.
Defined.

(** C9.  Declaring an enumeration with the empty list of names succeeds, in
    any world and under any type name, and the enumeration has no members:
    every string probe and every integer probe is answered false, on the type
    and on its singleton instance, and [name(v)] raises [IndexError] for
    every integer [v]. *)
Theorem empty_enumeration w nm :
  exists w' cls singleton,
    declare w nm [] = Ok (w', cls) /\
    construct w' cls = Ok (w', singleton) /\
    (forall s, py_in w' (PyStr s) (PyClass (cls_id cls)) = Ok false) /\
    (forall s, py_in w' (PyStr s) singleton = Ok false) /\
    (forall x v, as_int x = Some v ->
       py_in w' x (PyClass (cls_id cls)) = Ok false) /\
    (forall x v, as_int x = Some v -> py_in w' x singleton = Ok false) /\
    (forall x v, as_int x = Some v ->
       call_name w' cls x = Raise (IndexError "list index out of range")).
Proof.
  destruct (declare_ok w nm [] (Forall_nil_2 _)) as (w' & cls & Hdecl).
  assert (Hnot : forall a : string, a ∉ @nil string) by (intros a; apply not_elem_of_nil).
  exists w', cls, (PyInstance (S (next_id w)) (cls_id cls)).
  split; [done|].
  split; [by apply (construct_singleton _ _ _ _ _ Hdecl)|].
  split.
  { intros s. rewrite (py_in_class _ _ _ _ _ Hdecl _ (Hnot _)).
    by rewrite (instance_contains_str _ _ _ _ _ Hdecl s (Hnot _)). }
  split.
  { intros s. rewrite (py_in_instance _ _ _ _ _ Hdecl).
    by rewrite (instance_contains_str _ _ _ _ _ Hdecl s (Hnot _)). }
  split.
  { intros x v Hx. rewrite (py_in_class _ _ _ _ _ Hdecl _ (Hnot _)).
    rewrite (instance_contains_int _ _ _ _ _ Hdecl x v Hx).
    unfold is_member_value. simpl. f_equal. zcases. }
  split.
  { intros x v Hx. rewrite (py_in_instance _ _ _ _ _ Hdecl).
    rewrite (instance_contains_int _ _ _ _ _ Hdecl x v Hx).
    unfold is_member_value. simpl. f_equal. zcases. }
  intros x v Hx.
  rewrite (call_name_getitem _ _ _ _ _ Hdecl x v (Hnot _) (Hnot _) Hx).
  apply list_getitem_nil.
Qed.

(** C10, as stated, fails: declare an enumeration whose only member is
    called [name].  The loop of [__init__] binds [E.name] to the member
    value, which hides the classmethod, and [E.name(E.name)] raises instead
    of answering ['name']. *)
Lemma name_round_trip_member_called_name :
  exists w cls m,
    declare world0 "E" ["name"] = Ok (w, cls) /\
    py_getattr w (PyClass (cls_id cls)) "name" = Ok m /\
    call_name w cls m =
    Raise (TypeError "'_EnumerationValue' object is not callable").
Proof.
  destruct (declare world0 "E" ["name"]) as [[w cls]|e] eqn:Hd;
    [|vm_compute in Hd; discriminate].
  vm_compute in Hd. inversion Hd; subst.
  do 3 eexists. split; [reflexivity|].
  split; vm_compute; reflexivity.
Qed.

(** C10, amended.  For an enumeration declared with members [n0 .. nk], none
    of them called [name] or [_enum_], both ways of getting a member's name
    back agree for every position [i]: [name(enumerationType.n_i)] is [n_i],
    and the attribute [enumerationType.n_i.name] is [n_i]. *)
Theorem name_round_trip w nm names w' cls (i : nat) n :
  declare w nm names = Ok (w', cls) ->
  "name" ∉ names ->
  "_enum_" ∉ names ->
  names !! i = Some n ->
  exists m,
    py_getattr w' (PyClass (cls_id cls)) n = Ok m /\
    call_name w' cls m = Ok (PyStr n) /\
    py_getattr w' m "name" = Ok (PyStr n).
Proof.
  intros Hdecl Hn He Hi.
  pose proof (declare_find _ _ _ _ _ Hdecl) as Hfind.
  destruct (last_occurrence names n) as (j & Hj & Hlast);
    [by apply list_elem_of_lookup_2 in Hi|].
  destruct (declared_member _ _ _ _ _ Hdecl j n Hj Hlast) as [Hc _].
  exists (PyEV (mkEV (Z.of_nat j) n nm)).
  split; [simpl; by rewrite Hfind|].
  split; [|done].
  rewrite (call_name_getitem _ _ _ _ _ Hdecl
             (PyEV (mkEV (Z.of_nat j) n nm)) (Z.of_nat j) Hn He eq_refl).
  by apply list_getitem_nonneg.
Qed.

Lemma name_round_trip_witness :
  declare world0 "Dup" Dup_names = Ok (Dup_world, Dup) /\
  ("name" ∉ Dup_names) /\
  ("_enum_" ∉ Dup_names) /\
  Dup_names !! 0%nat = Some "a" /\
  exists m,
    py_getattr Dup_world (PyClass (cls_id Dup)) "a" = Ok m /\
    call_name Dup_world Dup m = Ok (PyStr "a") /\
    py_getattr Dup_world m "name" = Ok (PyStr "a").
Proof.
  split; [vm_compute; reflexivity|].
  split; [apply not_elem_of_decide; vm_compute; reflexivity|].
  split; [apply not_elem_of_decide; vm_compute; reflexivity|].
  split; [reflexivity|].
  apply (name_round_trip world0 "Dup" Dup_names Dup_world Dup 0 "a").
  - vm_compute; reflexivity.
  - apply not_elem_of_decide; vm_compute; reflexivity.
  - apply not_elem_of_decide; vm_compute; reflexivity.
  - reflexivity.
Defined.

(** * Further properties of the module *)

(** ** When a declaration goes through *)

Lemma init_members_fails names : forall cls nm start l0,
  cls_dict cls !! "_values" = Some (PyList l0) ->
  Forall (fun n => special n = false) names ->
  "_values" ∈ names ->
  init_members cls nm start (PyStr <$> names) =
  Raise (AttributeError "'_EnumerationValue' object has no attribute 'append'").
Proof.
  induction names as [|n rest IH]; intros cls nm start l0 Hl0 Hall Hin.
  - by apply elem_of_nil in Hin.
  - apply Forall_cons in Hall as [Hsp Hall].
    rewrite fmap_cons. simpl. unfold class_setattr. rewrite Hsp. simpl.
    unfold append_values, class_getattr. rewrite special__values.
    unfold mro_lookup. simpl.
    destruct (decide (n = "_values")) as [->|Hne].
    + rewrite lookup_insert_eq. done.
    + rewrite lookup_insert_ne by done. rewrite Hl0. simpl.
      apply elem_of_cons in Hin as [Heq|Hin]; [congruence|].
      eapply IH; [|done|done]. simpl. by rewrite lookup_insert_eq.
Qed.

(** The class statement goes through for every list of names but one
    holding [_values]: the loop of [__init__] appends to [cls._values] after
    each [setattr], and a member of that name has just replaced the list.
    (Names of the interpreter's own are set aside.) *)
Theorem declare_succeeds_iff w nm names :
  Forall (fun n => special n = false) names ->
  ("_values" ∉ names -> exists w' cls, declare w nm names = Ok (w', cls)) /\
  ("_values" ∈ names ->
   declare w nm names =
   Raise (AttributeError "'_EnumerationValue' object has no attribute 'append'")).
Proof.
  intros Hall. split.
  - intros Hnot. apply declare_ok.
    rewrite Forall_forall in Hall. apply Forall_forall. intros n Hn.
    split; [by apply Hall|]. intros ->. done.
  - intros Hin. rewrite declare_unfold.
    by rewrite (init_members_fails names
                  (mkClass (next_id w) nm (initial_dict w names)) nm 0 []
                  eq_refl Hall Hin).
Qed.

Lemma declare_succeeds_iff_witness :
  Forall (fun n => special n = false) ["a"; "_values"] /\
  declare world0 "E" ["a"; "_values"] =
  Raise (AttributeError "'_EnumerationValue' object has no attribute 'append'").
Proof.
  split; [repeat constructor|].
  apply (declare_succeeds_iff world0 "E" ["a"; "_values"]).
  - repeat constructor.
  - apply (bool_decide_unpack _). vm_compute. exact I.
Defined.

(** ** A name listed twice *)

(** When a name is listed more than once, in an enumeration with no member
    called [instance] and no member name that starts with two underscores,
    the attribute of that name is the member value of its last position: a
    position [i] before it is still counted as a member value ([i in cls]
    is true), but the attribute does not compare equal to [i]. *)
Theorem duplicate_name_last_wins w nm names w' cls (i j : nat) n :
  declare w nm names = Ok (w', cls) ->
  Forall (fun m => special m = false) names ->
  "instance" ∉ names ->
  names !! i = Some n ->
  names !! j = Some n ->
  (i < j)%nat ->
  n ∉ drop (S j) names ->
  py_getattr w' (PyClass (cls_id cls)) n = Ok (PyEV (mkEV (Z.of_nat j) n nm)) /\
  py_eq (PyEV (mkEV (Z.of_nat j) n nm)) (PyInt (Z.of_nat i)) = false /\
  py_in w' (PyInt (Z.of_nat i)) (PyClass (cls_id cls)) = Ok true /\
  py_in w' (PyInt (Z.of_nat j)) (PyClass (cls_id cls)) = Ok true.
Proof.
  intros Hdecl _ Hinst Hi Hj Hlt Hlast.
  destruct (declared_member _ _ _ _ _ Hdecl j n Hj Hlast) as [Hc _].
  pose proof (lookup_lt_Some _ _ _ Hi) as Hil.
  pose proof (lookup_lt_Some _ _ _ Hj) as Hjl.
  split; [simpl; by rewrite (declare_find _ _ _ _ _ Hdecl)|].
  split; [simpl; apply Z.eqb_neq; lia|].
  split.
  - rewrite (py_in_class _ _ _ _ _ Hdecl _ Hinst).
    rewrite (instance_contains_int _ _ _ _ _ Hdecl (PyInt (Z.of_nat i)) _ eq_refl).
    unfold is_member_value. f_equal. zcases.
  - rewrite (py_in_class _ _ _ _ _ Hdecl _ Hinst).
    rewrite (instance_contains_int _ _ _ _ _ Hdecl (PyInt (Z.of_nat j)) _ eq_refl).
    unfold is_member_value. f_equal. zcases.
Qed.

Lemma duplicate_name_last_wins_witness :
  declare world0 "Dup" Dup_names = Ok (Dup_world, Dup) /\
  Forall (fun m => special m = false) Dup_names /\
  ("instance" ∉ Dup_names) /\
  py_getattr Dup_world (PyClass (cls_id Dup)) "a" = Ok (PyEV (mkEV 2 "a" "Dup")) /\
  py_eq (PyEV (mkEV 2 "a" "Dup")) (PyInt 0) = false /\
  py_in Dup_world (PyInt 0) (PyClass (cls_id Dup)) = Ok true /\
  py_in Dup_world (PyInt 2) (PyClass (cls_id Dup)) = Ok true.
Proof.
  split; [vm_compute; reflexivity|].
  split; [repeat constructor|].
  split; [apply not_elem_of_decide; vm_compute; reflexivity|].
  apply (duplicate_name_last_wins world0 "Dup" Dup_names Dup_world Dup 0 2 "a").
  - vm_compute; reflexivity.
  - repeat constructor.
  - apply not_elem_of_decide; vm_compute; reflexivity.
  - reflexivity.
  - reflexivity.
  - lia.
  - apply not_elem_of_decide; vm_compute; reflexivity.
Defined.

(** ** One declaration after another *)

(** What a declared class holds under [instance], and under [name]: what the
    metaclass put there, or the member value that took the name. *)
Lemma declared_instance_cases w nm names w' cls :
  declare w nm names = Ok (w', cls) ->
  class_getattr cls "instance" = Ok (PyInstance (S (next_id w)) (cls_id cls)) \/
  exists ev, class_getattr cls "instance" = Ok (PyEV ev).
Proof.
  intros Hdecl. destruct (decide ("instance" ∈ names)) as [Hin|Hnot].
  - right. destruct (last_occurrence _ _ Hin) as (i & Hi & Hlast).
    destruct (declared_member _ _ _ _ _ Hdecl i _ Hi Hlast) as [Hc _]. by eexists.
  - left. by apply (declared_instance _ _ _ _ _ Hdecl).
Qed.

Lemma declared_name_cases w nm names w' cls :
  declare w nm names = Ok (w', cls) ->
  class_getattr cls "name" = Ok (PyBoundName (cls_id cls)) \/
  exists ev, class_getattr cls "name" = Ok (PyEV ev).
Proof.
  intros Hdecl. destruct (decide ("name" ∈ names)) as [Hin|Hnot].
  - right. destruct (last_occurrence _ _ Hin) as (i & Hi & Hlast).
    destruct (declared_member _ _ _ _ _ Hdecl i _ Hi Hlast) as [Hc _]. by eexists.
  - left. by apply (declared_name _ _ _ _ _ Hdecl).
Qed.

Lemma declare_frame w nm names w' cls cid :
  declare w nm names = Ok (w', cls) ->
  cid <> cls_id cls ->
  find_class w' cid = find_class w cid.
Proof.
  intros Hdecl Hne. apply declare_inv in Hdecl as (Hid & _ & -> & _).
  unfold find_class. simpl. rewrite lookup_insert_ne; [done|congruence].
Qed.

(** Declaring a further enumeration leaves an earlier one as it was: the
    earlier class object is still the one recorded under its identity, and
    every membership test, every call of [name], every attribute read and
    every construction on it answers as before, whatever the members of
    either are called. *)
Theorem earlier_enumeration_untouched w nm1 names1 w1 c1 nm2 names2 w2 c2 :
  declare w nm1 names1 = Ok (w1, c1) ->
  declare w1 nm2 names2 = Ok (w2, c2) ->
  find_class w2 (cls_id c1) = Ok c1 /\
  (forall x, py_in w2 x (PyClass (cls_id c1)) = py_in w1 x (PyClass (cls_id c1))) /\
  (forall x oid,
     py_in w2 x (PyInstance oid (cls_id c1))
     = py_in w1 x (PyInstance oid (cls_id c1))) /\
  (forall x, call_name w2 c1 x = call_name w1 c1 x) /\
  (forall a,
     py_getattr w2 (PyClass (cls_id c1)) a = py_getattr w1 (PyClass (cls_id c1)) a) /\
  (forall o, construct w1 c1 = Ok (w1, o) -> construct w2 c1 = Ok (w2, o)).
Proof.
  intros Hd1 Hd2.
  pose proof (declare_find _ _ _ _ _ Hd1) as Hf1.
  pose proof (declare_inv _ _ _ _ _ Hd1) as (Hid1 & _ & Hw1 & _).
  pose proof (declare_inv _ _ _ _ _ Hd2) as (Hid2 & _ & _).
  assert (Hne : cls_id c1 <> cls_id c2).
  { rewrite Hid1, Hid2, Hw1. simpl. lia. }
  assert (Hf2 : find_class w2 (cls_id c1) = Ok c1).
  { by rewrite (declare_frame _ _ _ _ _ _ Hd2 Hne). }
  split; [done|].
  split.
  { intros x. unfold py_in, Meta___contains__. rewrite Hf1, Hf2. simpl.
    destruct (declared_instance_cases _ _ _ _ _ Hd1) as [->|[ev ->]]; simpl.
    - by rewrite Hf1, Hf2.
    - done. }
  split; [intros x oid; simpl; by rewrite Hf1, Hf2|].
  split.
  { intros x. unfold call_name.
    destruct (declared_name_cases _ _ _ _ _ Hd1) as [->|[ev ->]]; simpl.
    - by rewrite Hf1, Hf2.
    - done. }
  split; [intros a; simpl; by rewrite Hf1, Hf2|].
  intros o. unfold construct, Enumeration___new__.
  destruct (class_getattr c1 "instance"); simpl; [|discriminate].
  intros H. by inversion H.
Qed.

Lemma earlier_enumeration_untouched_witness :
  declare world0 "EnumTest" EnumTest_names = Ok (EnumTest_world, EnumTest) /\
  declare EnumTest_world "ET" ET_names = Ok (ET_world, ET) /\
  find_class ET_world (cls_id EnumTest) = Ok EnumTest /\
  (forall x,
     py_in ET_world x (PyClass (cls_id EnumTest))
     = py_in EnumTest_world x (PyClass (cls_id EnumTest))) /\
  (forall x oid,
     py_in ET_world x (PyInstance oid (cls_id EnumTest))
     = py_in EnumTest_world x (PyInstance oid (cls_id EnumTest))) /\
  (forall x, call_name ET_world EnumTest x = call_name EnumTest_world EnumTest x) /\
  (forall a,
     py_getattr ET_world (PyClass (cls_id EnumTest)) a
     = py_getattr EnumTest_world (PyClass (cls_id EnumTest)) a) /\
  (forall o, construct EnumTest_world EnumTest = Ok (EnumTest_world, o) ->
             construct ET_world EnumTest = Ok (ET_world, o)).
Proof.
  split; [vm_compute; reflexivity|].
  split; [vm_compute; reflexivity|].
  apply (earlier_enumeration_untouched world0 "EnumTest" EnumTest_names
           EnumTest_world EnumTest "ET" ET_names ET_world ET).
  - vm_compute; reflexivity.
  - vm_compute; reflexivity.
Defined.

(** ** Probes and arguments of other types *)






(** ** The reach of [name] *)

(** On an enumeration with members [n0 .. nk] that leave [name] and [_enum_]
    alone, [name(v)] answers for the integers [-(k+1) <= v <= k] and for no
    other: it raises for the rest, and below zero it repeats the names, so
    that [name(v - (k+1))] is [name(v)] for every position [v]. *)
Theorem name_index_range w nm names w' cls v :
  declare w nm names = Ok (w', cls) ->
  "name" ∉ names ->
  "_enum_" ∉ names ->
  is_ok (call_name w' cls (PyInt v))
  = (- Z.of_nat (length names) <=? v) && (v <? Z.of_nat (length names)) /\
  (0 <= v < Z.of_nat (length names) ->
   call_name w' cls (PyInt (v - Z.of_nat (length names)))
   = call_name w' cls (PyInt v)).
Proof.
  intros Hdecl Hn He.
  destruct (name_lookup _ _ _ _ _ Hdecl Hn He) as (Hpos & Hbeyond & Hbelow & Hneg).
  assert (Hin : forall u, 0 <= u < Z.of_nat (length names) ->
            exists n, names !! Z.to_nat u = Some n /\
                      call_name w' cls (PyInt u) = Ok (PyStr n)).
  { intros u Hu.
    destruct (lookup_lt_is_Some_2 names (Z.to_nat u)) as [n Hi]; [lia|].
    exists n. split; [done|].
    rewrite <- (Z2Nat.id u) by lia. by apply Hpos. }
  split.
  - destruct (Z.lt_ge_cases v (- Z.of_nat (length names))) as [Hlo|Hlo].
    { rewrite (Hbelow v Hlo). simpl. zcases. }
    destruct (Z.lt_ge_cases v 0) as [Hz|Hz].
    { destruct (Hin (v + Z.of_nat (length names))) as (n & Hi & _); [lia|].
      rewrite (Hneg v n) by (done || lia). simpl. zcases. }
    destruct (Z.lt_ge_cases v (Z.of_nat (length names))) as [Hhi|Hhi].
    { destruct (Hin v) as (n & _ & ->); [lia|]. simpl. zcases. }
    rewrite (Hbeyond v) by lia. simpl. zcases.
  - intros Hv. destruct (Hin v Hv) as (n & Hi & ->).
    apply Hneg; [lia|].
    by replace (v - Z.of_nat (length names) + Z.of_nat (length names)) with v by lia.
Qed.

Lemma name_index_range_witness :
  declare EnumTest_world "ET" ET_names = Ok (ET_world, ET) /\
  ("name" ∉ ET_names) /\
  ("_enum_" ∉ ET_names) /\
  is_ok (call_name ET_world ET (PyInt 1)) = true /\
  (0 <= 1 < 3 ->
   call_name ET_world ET (PyInt (1 - 3)) = call_name ET_world ET (PyInt 1)).
Proof.
  split; [vm_compute; reflexivity|].
  split; [apply not_elem_of_decide; vm_compute; reflexivity|].
  split; [apply not_elem_of_decide; vm_compute; reflexivity|].
  apply (name_index_range EnumTest_world "ET" ET_names ET_world ET 1).
  - vm_compute; reflexivity.
  - apply not_elem_of_decide; vm_compute; reflexivity.
  - apply not_elem_of_decide; vm_compute; reflexivity.
Defined.

(** Whatever integer the enumeration counts as a member has a name, and the
    name is a member in its turn: when [v in cls] is true, [cls.name(v)] is
    the name declared at position [v], and that string passes the test
    too. *)
Theorem member_value_has_member_name w nm names w' cls x v :
  declare w nm names = Ok (w', cls) ->
  "instance" ∉ names ->
  "name" ∉ names ->
  "_enum_" ∉ names ->
  as_int x = Some v ->
  py_in w' x (PyClass (cls_id cls)) = Ok true ->
  exists n,
    names !! Z.to_nat v = Some n /\
    call_name w' cls x = Ok (PyStr n) /\
    py_in w' (PyStr n) (PyClass (cls_id cls)) = Ok true.
Proof.
  intros Hdecl Hi Hn He Hx Hin.
  rewrite (py_in_class _ _ _ _ _ Hdecl _ Hi) in Hin.
  rewrite (instance_contains_int _ _ _ _ _ Hdecl x v Hx) in Hin.
  assert (Hrange : is_member_value names v = true) by congruence.
  unfold is_member_value in Hrange.
  apply andb_true_iff in Hrange as [Hlo Hhi].
  apply Z.leb_le in Hlo. apply Z.ltb_lt in Hhi.
  destruct (lookup_lt_is_Some_2 names (Z.to_nat v)) as [n Hl]; [lia|].
  exists n. split; [done|]. split.
  - rewrite (call_name_getitem _ _ _ _ _ Hdecl x v Hn He Hx).
    rewrite <- (Z2Nat.id v) by lia. by apply list_getitem_nonneg.
  - rewrite (py_in_class _ _ _ _ _ Hdecl _ Hi).
    rewrite (instance_contains_str _ _ _ _ _ Hdecl n He). f_equal.
    apply bool_decide_eq_true. by apply list_elem_of_lookup_2 in Hl.
Qed.

Lemma member_value_has_member_name_witness :
  declare world0 "EnumTest" EnumTest_names = Ok (EnumTest_world, EnumTest) /\
  as_int (PyInt 2) = Some 2 /\
  py_in EnumTest_world (PyInt 2) (PyClass (cls_id EnumTest)) = Ok true /\
  exists n,
    EnumTest_names !! Z.to_nat 2 = Some n /\
    call_name EnumTest_world EnumTest (PyInt 2) = Ok (PyStr n) /\
    py_in EnumTest_world (PyStr n) (PyClass (cls_id EnumTest)) = Ok true.
Proof.
  split; [vm_compute; reflexivity|].
  split; [reflexivity|].
  split; [vm_compute; reflexivity|].
  apply (member_value_has_member_name world0 "EnumTest" EnumTest_names
           EnumTest_world EnumTest (PyInt 2) 2).
  - vm_compute; reflexivity.
  - apply not_elem_of_decide; vm_compute; reflexivity.
  - apply not_elem_of_decide; vm_compute; reflexivity.
  - apply not_elem_of_decide; vm_compute; reflexivity.
  - reflexivity.
  - vm_compute; reflexivity.
Defined.

(** ** Values of one enumeration seen by another *)

(** Enumeration values carry no tie to their type when compared.  Take two
    enumerations with distinct names each, the second with no member called
    [instance] and no member name that starts with two underscores: the
    member at position [i] of the first passes the membership test of the
    second exactly when the second has a position [i], and it compares
    equal to the second's member at position [i]. *)
Theorem member_of_another_enumeration
    wa nm1 names1 wa' c1 wb nm2 names2 wb' c2 (i : nat) n m :
  declare wa nm1 names1 = Ok (wa', c1) ->
  NoDup names1 ->
  names1 !! i = Some n ->
  class_getattr c1 n = Ok m ->
  declare wb nm2 names2 = Ok (wb', c2) ->
  NoDup names2 ->
  Forall (fun m => special m = false) names2 ->
  "instance" ∉ names2 ->
  py_in wb' m (PyClass (cls_id c2)) = Ok (bool_decide (i < length names2)%nat) /\
  (forall n2 m2, names2 !! i = Some n2 -> class_getattr c2 n2 = Ok m2 ->
                 py_eq m m2 = true).
Proof.
  intros Hd1 Hnd1 Hi Hm Hd2 Hnd2 _ Hinst.
  destruct (declared_member _ _ _ _ _ Hd1 i n Hi (NoDup_not_later _ _ _ Hnd1 Hi))
    as [Hc _].
  rewrite Hc in Hm. inversion Hm; subst m; clear Hm.
  split.
  - rewrite (py_in_class _ _ _ _ _ Hd2 _ Hinst).
    rewrite (instance_contains_int _ _ _ _ _ Hd2
               (PyEV (mkEV (Z.of_nat i) n nm1)) (Z.of_nat i) eq_refl).
    f_equal. unfold is_member_value.
    destruct (decide (i < length names2)%nat) as [Hlt|Hge].
    + rewrite bool_decide_eq_true_2 by done. zcases.
    + rewrite bool_decide_eq_false_2 by done. zcases.
  - intros n2 m2 Hi2 Hm2.
    destruct (declared_member _ _ _ _ _ Hd2 i n2 Hi2
                (NoDup_not_later _ _ _ Hnd2 Hi2)) as [Hc2 _].
    rewrite Hc2 in Hm2. inversion Hm2; subst m2. simpl. apply Z.eqb_refl.
Qed.

Lemma member_of_another_enumeration_witness :
  declare world0 "EnumTest" EnumTest_names = Ok (EnumTest_world, EnumTest) /\
  class_getattr EnumTest "rab" = Ok (PyEV (mkEV 2 "rab" "EnumTest")) /\
  declare EnumTest_world "ET" ET_names = Ok (ET_world, ET) /\
  py_in ET_world (PyEV (mkEV 2 "rab" "EnumTest")) (PyClass (cls_id ET)) = Ok true /\
  (forall n2 m2, ET_names !! 2%nat = Some n2 -> class_getattr ET n2 = Ok m2 ->
                 py_eq (PyEV (mkEV 2 "rab" "EnumTest")) m2 = true).
Proof.
  split; [vm_compute; reflexivity|].
  split; [vm_compute; reflexivity|].
  split; [vm_compute; reflexivity|].
  apply (member_of_another_enumeration world0 "EnumTest" EnumTest_names
           EnumTest_world EnumTest EnumTest_world "ET" ET_names ET_world ET
           2 "rab" (PyEV (mkEV 2 "rab" "EnumTest"))).
  - vm_compute; reflexivity.
  - apply NoDup_decide; vm_compute; reflexivity.
  - reflexivity.
  - vm_compute; reflexivity.
  - vm_compute; reflexivity.
  - apply NoDup_decide; vm_compute; reflexivity.
  - repeat constructor.
  - apply not_elem_of_decide; vm_compute; reflexivity.
Defined.

(** ** The keyword [first_time] *)

(** On an enumeration with no member called [instance] and no member name
    that starts with two underscores, [Enumeration.__new__] called with
    [first_time=True] does not return the singleton: each such call makes a
    new instance of the class, distinct from the singleton and from the one
    made before, and the class keeps handing out its singleton afterwards.
    The membership test does not tell the new instance from the
    singleton. *)
Theorem first_time_makes_new_instance w nm names w' cls :
  declare w nm names = Ok (w', cls) ->
  Forall (fun m => special m = false) names ->
  "instance" ∉ names ->
  exists w1 w2 o1 o2 singleton,
    Enumeration___new__ w' cls true = Ok (w1, o1) /\
    Enumeration___new__ w1 cls true = Ok (w2, o2) /\
    construct w2 cls = Ok (w2, singleton) /\
    construct w' cls = Ok (w', singleton) /\
    is_instance_of o1 (cls_id cls) = true /\
    is_instance_of o2 (cls_id cls) = true /\
    py_eq o1 singleton = false /\
    py_eq o2 singleton = false /\
    py_eq o1 o2 = false /\
    classes w2 = classes w' /\
    (forall x, py_in w2 x o1 = py_in w2 x singleton).
Proof.
  intros Hdecl _ Hi.
  pose proof (declared_instance _ _ _ _ _ Hdecl Hi) as Hinst.
  pose proof (declare_find _ _ _ _ _ Hdecl) as Hfind.
  pose proof (declare_inv _ _ _ _ _ Hdecl) as (_ & _ & Hw & _).
  assert (Hnext : next_id w' = S (S (next_id w))) by (by rewrite Hw).
  exists (mkWorld (S (next_id w')) (classes w')),
         (mkWorld (S (S (next_id w'))) (classes w')),
         (PyInstance (next_id w') (cls_id cls)),
         (PyInstance (S (next_id w')) (cls_id cls)),
         (PyInstance (S (next_id w)) (cls_id cls)).
  split; [done|]. split; [done|].
  split; [unfold construct, Enumeration___new__; by rewrite Hinst|].
  split; [unfold construct, Enumeration___new__; by rewrite Hinst|].
  split; [simpl; apply Nat.eqb_refl|].
  split; [simpl; apply Nat.eqb_refl|].
  split; [simpl; apply Nat.eqb_neq; lia|].
  split; [simpl; apply Nat.eqb_neq; lia|].
  split; [simpl; apply Nat.eqb_neq; lia|].
  split; [done|].
  intros x. done.
Qed.

Lemma first_time_makes_new_instance_witness :
  declare world0 "EnumTest" EnumTest_names = Ok (EnumTest_world, EnumTest) /\
  Forall (fun m => special m = false) EnumTest_names /\
  ("instance" ∉ EnumTest_names) /\
  exists w1 w2 o1 o2 singleton,
    Enumeration___new__ EnumTest_world EnumTest true = Ok (w1, o1) /\
    Enumeration___new__ w1 EnumTest true = Ok (w2, o2) /\
    construct w2 EnumTest = Ok (w2, singleton) /\
    construct EnumTest_world EnumTest = Ok (EnumTest_world, singleton) /\
    is_instance_of o1 (cls_id EnumTest) = true /\
    is_instance_of o2 (cls_id EnumTest) = true /\
    py_eq o1 singleton = false /\
    py_eq o2 singleton = false /\
    py_eq o1 o2 = false /\
    classes w2 = classes EnumTest_world /\
    (forall x, py_in w2 x o1 = py_in w2 x singleton).
Proof.
  split; [vm_compute; reflexivity|].
  split; [repeat constructor|].
  split; [apply not_elem_of_decide; vm_compute; reflexivity|].
  apply (first_time_makes_new_instance world0 "EnumTest" EnumTest_names
           EnumTest_world EnumTest).
  - vm_compute; reflexivity.
  - repeat constructor.
  - apply not_elem_of_decide; vm_compute; reflexivity.
Defined.

(** ** Assignment on the type itself *)

(** A class that differs from [cls] in one attribute reads like [cls]
    everywhere else. *)
Lemma rebound_class_reads cls attr v a :
  a <> attr ->
  class_getattr (mkClass (cls_id cls) (cls_name cls) (<[attr := v]> (cls_dict cls))) a
  = class_getattr cls a /\
  instance_getattr (mkClass (cls_id cls) (cls_name cls) (<[attr := v]> (cls_dict cls))) a
  = instance_getattr cls a.
Proof.
  intros Hne. unfold class_getattr, instance_getattr, mro_lookup. simpl.
  rewrite lookup_insert_ne by done.
  split; destruct (special a); try done;
    destruct (cls_dict cls !! a) as [u|]; try done;
    destruct (cls_dict Enumeration_class !! a) as [u|]; done.
Qed.

(** Only instances and value objects are write-protected; the metaclass does
    not guard the type.  After the declaration an assignment [cls.attr = v]
    goes through for every attribute but the class's own four, a declared
    member name included: the attribute then reads as [v], while membership
    tests and [name] answer as before, so a rebound member is still counted
    under its old value.  On an instance the attribute is read-only from
    then on. *)
Theorem class_attribute_can_be_rebound w nm names w' cls attr v :
  declare w nm names = Ok (w', cls) ->
  cls_id cls <> Enumeration_id ->
  special attr = false ->
  attr <> "instance" -> attr <> "_values" -> attr <> "_enum_" -> attr <> "name" ->
  exists w'' cls',
    py_setattr w' (PyClass (cls_id cls)) attr v = (w'', Ok tt) /\
    find_class w'' (cls_id cls) = Ok cls' /\
    py_getattr w'' (PyClass (cls_id cls)) attr = Ok (bind_descr cls v) /\
    (forall x, py_in w'' x (PyClass (cls_id cls)) = py_in w' x (PyClass (cls_id cls))) /\
    (forall x, call_name w'' cls' x = call_name w' cls x) /\
    (forall oid u,
       py_setattr w'' (PyInstance oid (cls_id cls)) attr u =
       (w'', Raise (AttributeError
                      ("'" ++ nm ++ "' object attribute '" ++ attr
                       ++ "' is read-only")%string))).
Proof.
  intros Hdecl Hbase Hsp Hi Hv He Hn.
  pose proof (declare_find _ _ _ _ _ Hdecl) as Hfind.
  pose proof (declare_inv _ _ _ _ _ Hdecl) as (_ & Hnm & _).
  set (cls' := mkClass (cls_id cls) (cls_name cls) (<[attr := v]> (cls_dict cls))).
  assert (Hfind' : find_class (store_class w' cls') (cls_id cls) = Ok cls').
  { unfold find_class, store_class. simpl. by rewrite lookup_insert_eq. }
  assert (Hreads : forall a, a <> attr ->
            class_getattr cls' a = class_getattr cls a /\
            instance_getattr cls' a = instance_getattr cls a).
  { intros a Ha. by apply rebound_class_reads. }
  assert (Hcontains : forall x,
            Enumeration___contains__ cls' x = Enumeration___contains__ cls x).
  { intros x. unfold Enumeration___contains__.
    destruct (Hreads "_enum_") as [_ ->]; [done|].
    destruct (Hreads "_values") as [_ ->]; [done|]. done. }
  exists (store_class w' cls'), cls'.
  split.
  { simpl. destruct (Nat.eqb_spec (cls_id cls) Enumeration_id) as [?|_]; [done|].
    rewrite Hfind. simpl. unfold class_setattr. rewrite Hsp. done. }
  split; [done|].
  split.
  { simpl. rewrite Hfind'. simpl. unfold class_getattr, mro_lookup. simpl.
    rewrite Hsp, lookup_insert_eq. done. }
  split.
  { intros x. unfold py_in, Meta___contains__. rewrite Hfind, Hfind'. simpl.
    destruct (Hreads "instance") as [-> _]; [done|].
    destruct (declared_instance_cases _ _ _ _ _ Hdecl) as [->|[ev ->]]; simpl.
    - rewrite Hfind, Hfind'. simpl. apply Hcontains.
    - done. }
  split.
  { intros x. unfold call_name.
    destruct (Hreads "name") as [-> _]; [done|].
    destruct (declared_name_cases _ _ _ _ _ Hdecl) as [->|[ev ->]]; simpl.
    - rewrite Hfind, Hfind'. simpl. unfold Enumeration_name.
      destruct (Hreads "_enum_") as [-> _]; done.
    - done. }
  intros oid u. simpl. rewrite Hfind'.
  pose proof (declare_slotless _ _ _ _ _ Hdecl) as Hslots.
  assert (Hslots' : slotless cls' = true).
  { unfold slotless in *. simpl. rewrite lookup_insert_ne; [done|].
    intros Heq. rewrite Heq in Hsp. discriminate Hsp. }
  unfold instance_setattr. rewrite Hslots'. simpl.
  destruct (String.eqb_spec attr "__class__") as [->|_]; [discriminate|].
  unfold mro_lookup. simpl. rewrite lookup_insert_eq, Hnm. done.
Qed.

Lemma class_attribute_can_be_rebound_witness :
  declare world0 "EnumTest" EnumTest_names = Ok (EnumTest_world, EnumTest) /\
  cls_id EnumTest <> Enumeration_id /\
  special "foo" = false /\
  exists w'' cls',
    py_setattr EnumTest_world (PyClass (cls_id EnumTest)) "foo" (PyInt 6)
    = (w'', Ok tt) /\
    find_class w'' (cls_id EnumTest) = Ok cls' /\
    py_getattr w'' (PyClass (cls_id EnumTest)) "foo" = Ok (PyInt 6) /\
    (forall x,
       py_in w'' x (PyClass (cls_id EnumTest))
       = py_in EnumTest_world x (PyClass (cls_id EnumTest))) /\
    (forall x, call_name w'' cls' x = call_name EnumTest_world EnumTest x) /\
    (forall oid u,
       py_setattr w'' (PyInstance oid (cls_id EnumTest)) "foo" u =
       (w'', Raise (AttributeError
                      "'EnumTest' object attribute 'foo' is read-only"))).
Proof.
  split; [vm_compute; reflexivity|].
  split; [vm_compute; discriminate|].
  split; [reflexivity|].
  apply (class_attribute_can_be_rebound world0 "EnumTest" EnumTest_names
           EnumTest_world EnumTest "foo" (PyInt 6)).
  - vm_compute; reflexivity.
  - vm_compute; discriminate.
  - reflexivity.
  - discriminate.
  - discriminate.
  - discriminate.
  - discriminate.
Defined.

(** ** The base class *)

(** [Enumeration] itself went through its metaclass with [_enum_ = []]: in
    every world that holds it, it is an enumeration without members.
    [Enumeration()] hands out its singleton, no probe is a member, [name]
    raises for every integer, and an assignment on its instance raises
    [AttributeError] for every attribute but [__class__] (the [e.zzz = 6]
    of [_test]).  A declaration in a world whose counter has moved past the
    base class leaves it in place. *)
Theorem base_class_is_empty_enumeration w :
  find_class w Enumeration_id = Ok Enumeration_class ->
  construct w Enumeration_class = Ok (w, PyInstance 1 Enumeration_id) /\
  (forall x, py_in w x (PyClass Enumeration_id) = Ok false) /\
  (forall x oid, py_in w x (PyInstance oid Enumeration_id) = Ok false) /\
  (forall x v, as_int x = Some v ->
     call_name w Enumeration_class x
     = Raise (IndexError "list index out of range")) /\
  (forall oid attr v, attr <> "__class__" ->
     exists msg,
       py_setattr w (PyInstance oid Enumeration_id) attr v
       = (w, Raise (AttributeError msg))) /\
  (forall nm names w' cls,
     next_id w <> 0%nat -> declare w nm names = Ok (w', cls) ->
     find_class w' Enumeration_id = Ok Enumeration_class).
Proof.
  intros Hbase.
  assert (Hc : forall x, Enumeration___contains__ Enumeration_class x = Ok false).
  { intros x. destruct x; reflexivity. }
  split; [reflexivity|].
  split.
  { intros x. unfold py_in, Meta___contains__. rewrite Hbase. simpl.
    change (class_getattr Enumeration_class "instance")
      with (@Ok pyobj (PyInstance 1 Enumeration_id)).
    simpl. rewrite Hbase. simpl. apply Hc. }
  split.
  { intros x oid. unfold py_in. rewrite Hbase. simpl. apply Hc. }
  split.
  { intros x v Hx. unfold call_name.
    change (class_getattr Enumeration_class "name")
      with (@Ok pyobj (PyBoundName Enumeration_id)).
    simpl. rewrite Hbase. simpl. unfold Enumeration_name.
    change (class_getattr Enumeration_class "_enum_") with (@Ok pyobj (PyList [])).
    simpl. rewrite Hx. apply list_getitem_nil. }
  split.
  { intros oid attr v Hne. simpl. rewrite Hbase.
    unfold instance_setattr.
    change (slotless Enumeration_class) with true. simpl.
    destruct (String.eqb_spec attr "__class__") as [->|_]; [done|].
    destruct (mro_lookup Enumeration_class attr),
      (bool_decide (attr ∈ inherited_special)); by eexists. }
  intros nm names w' cls Hnext Hdecl.
  rewrite (declare_frame _ _ _ _ _ _ Hdecl); [done|].
  apply declare_inv in Hdecl as (Hid & _). rewrite Hid. done.
Qed.

Lemma base_class_is_empty_enumeration_witness :
  find_class EnumTest_world Enumeration_id = Ok Enumeration_class /\
  construct EnumTest_world Enumeration_class
  = Ok (EnumTest_world, PyInstance 1 Enumeration_id) /\
  (forall x, py_in EnumTest_world x (PyClass Enumeration_id) = Ok false) /\
  (forall x oid, py_in EnumTest_world x (PyInstance oid Enumeration_id) = Ok false) /\
  (forall x v, as_int x = Some v ->
     call_name EnumTest_world Enumeration_class x
     = Raise (IndexError "list index out of range")) /\
  (forall oid attr v, attr <> "__class__" ->
     exists msg,
       py_setattr EnumTest_world (PyInstance oid Enumeration_id) attr v
       = (EnumTest_world, Raise (AttributeError msg))) /\
  (forall nm names w' cls,
     next_id EnumTest_world <> 0%nat ->
     declare EnumTest_world nm names = Ok (w', cls) ->
     find_class w' Enumeration_id = Ok Enumeration_class).
Proof.
  split; [vm_compute; reflexivity|].
  apply (base_class_is_empty_enumeration EnumTest_world).
  vm_compute; reflexivity.
Defined.

(** ** [__repr__] *)

Lemma append_cancel_l (p s t : string) :
  (p ++ s)%string = (p ++ t)%string -> s = t.
Proof.
  induction p as [|c p IH]; simpl; intros H; [done|].
  inversion H. auto.
Qed.

Lemma append_char_cancel_r (c : Ascii.ascii) (s t : string) :
  (s ++ String c EmptyString)%string = (t ++ String c EmptyString)%string -> s = t.
Proof.
  revert t. induction s as [|a s IH]; intros [|b t]; simpl; intros H.
  - done.
  - inversion H as [[Hc Ht]]. destruct t; discriminate.
  - inversion H as [[Hc Hs]]. destruct s; discriminate.
  - inversion H as [[Hab Hst]]. f_equal. by apply IH.
Qed.

Lemma list_ascii_of_append (s t : string) :
  list_ascii_of_string (s ++ t)%string
  = list_ascii_of_string s ++ list_ascii_of_string t.
Proof. induction s as [|a s IH]; simpl; [done|]. by rewrite IH. Qed.

(** Two texts cut at a separator that occurs in neither tail are cut at the
    same place. *)
Lemma append_sep_inj (c : Ascii.ascii) : forall a a' b b' : string,
  ~ In c (list_ascii_of_string b) ->
  ~ In c (list_ascii_of_string b') ->
  (a ++ String c b)%string = (a' ++ String c b')%string ->
  a = a' /\ b = b'.
Proof.
  induction a as [|x a IH]; intros [|y a'] b b' Hb Hb'; simpl; intros H.
  - inversion H. done.
  - inversion H as [[Hc Hrest]]. exfalso. apply Hb. rewrite Hrest.
    rewrite list_ascii_of_append. apply in_or_app. right. by left.
  - inversion H as [[Hc Hrest]]. exfalso. apply Hb'. rewrite <- Hrest.
    rewrite list_ascii_of_append. apply in_or_app. right. by left.
  - inversion H as [[Hxy Hrest]].
    destruct (IH a' b b' Hb Hb' Hrest) as [-> ->]. done.
Qed.

Lemma digits_have_no_equals_sign (u : Decimal.uint) :
  ~ In "="%char (list_ascii_of_string (NilEmpty.string_of_uint u)).
Proof.
  induction u; simpl; intros H; try done;
    destruct H as [H|H]; try discriminate; by apply IHu.
Qed.

Lemma format_d_has_no_equals_sign (z : Z) :
  ~ In "="%char (list_ascii_of_string (format_d z)).
Proof.
  assert (Hu : forall u, ~ In "="%char (list_ascii_of_string (NilZero.string_of_uint u))).
  { intros u. destruct u; try apply digits_have_no_equals_sign.
    simpl. intros [H|H]; [discriminate|done]. }
  unfold format_d. destruct (Z.to_int z) as [u|u]; simpl.
  - apply Hu.
  - intros [H|H]; [discriminate|]. by apply (Hu u).
Qed.

(** The decimal text determines the integer. *)
Lemma format_d_inj (z z' : Z) : format_d z = format_d z' -> z = z'.
Proof.
  assert (Hread : forall y, NilZero.int_of_string (format_d y) = Some (Z.to_int y)).
  { intros y. unfold format_d. apply NilZero.isi; destruct y; simpl; try discriminate;
      intros H; inversion H as [Hnil]; by apply Unsigned.to_uint_nonnil in Hnil. }
  intros H.
  assert (Hint : Z.to_int z = Z.to_int z').
  { pose proof (Hread z) as Hz. rewrite H, Hread in Hz. by inversion Hz. }
  rewrite <- (DecimalZ.of_to z), <- (DecimalZ.of_to z'). by rewrite Hint.
Qed.

(** The text [__repr__] prints tells the values of one enumeration apart:
    two value objects that carry the same owning-type name and print the
    same have the same name and the same integer value. *)
Theorem repr_injective (ev ev' : _EnumerationValue) :
  _enum ev = _enum ev' ->
  _EnumerationValue___repr__ ev = _EnumerationValue___repr__ ev' ->
  ev = ev'.
Proof.
  destruct ev as [z n e], ev' as [z' n' e']. simpl. intros -> H.
  unfold _EnumerationValue___repr__ in H. simpl in H.
  inversion H as [Hrest]. clear H.
  apply (append_cancel_l e') in Hrest. simpl in Hrest.
  inversion Hrest as [Hbody]. clear Hrest.
  assert (Htail : forall y,
            ~ In "="%char (list_ascii_of_string (format_d y ++ ">")%string)).
  { intros y. rewrite list_ascii_of_append. intros Hin.
    apply in_app_or in Hin as [Hin|Hin].
    - by apply format_d_has_no_equals_sign in Hin.
    - simpl in Hin. destruct Hin as [Hin|Hin]; [discriminate|done]. }
  destruct (append_sep_inj "="%char n n' _ _ (Htail z) (Htail z') Hbody)
    as [-> Hdigits].
  apply append_char_cancel_r in Hdigits. by rewrite (format_d_inj _ _ Hdigits).
Qed.

Lemma repr_injective_witness :
  _enum (mkEV 1 "bar" "EnumTest") = _enum (mkEV 1 "bar" "EnumTest") /\
  _EnumerationValue___repr__ (mkEV 1 "bar" "EnumTest") = "<EnumTest: bar=1>" /\
  mkEV 1 "bar" "EnumTest" = mkEV 1 "bar" "EnumTest".
Proof.
  split; [reflexivity|]. split; [reflexivity|].
  apply (repr_injective (mkEV 1 "bar" "EnumTest") (mkEV 1 "bar" "EnumTest"));
    reflexivity.
Defined.

(** The member declared at position [i] under the name [n] in the type [nm]
    prints as [<nm: n=i>], [i] in decimal, and no other position of the same
    enumeration prints like it. *)
Theorem member_repr w nm names w' cls (i : nat) n m :
  declare w nm names = Ok (w', cls) ->
  NoDup names ->
  names !! i = Some n ->
  py_getattr w' (PyClass (cls_id cls)) n = Ok (PyEV m) ->
  _EnumerationValue___repr__ m
  = ("<" ++ nm ++ ": " ++ n ++ "=" ++ format_d (Z.of_nat i) ++ ">")%string /\
  (forall (j : nat) n' m',
     names !! j = Some n' ->
     py_getattr w' (PyClass (cls_id cls)) n' = Ok (PyEV m') ->
     _EnumerationValue___repr__ m' = _EnumerationValue___repr__ m ->
     j = i).
Proof.
  intros Hdecl Hnd Hi Hm.
  pose proof (declare_find _ _ _ _ _ Hdecl) as Hfind.
  simpl in Hm. rewrite Hfind in Hm. simpl in Hm.
  destruct (declared_member _ _ _ _ _ Hdecl i n Hi (NoDup_not_later _ _ _ Hnd Hi))
    as [Hc _].
  rewrite Hc in Hm. inversion Hm; subst m; clear Hm.
  split; [reflexivity|].
  intros j n' m' Hj Hm' Hrepr.
  simpl in Hm'. rewrite Hfind in Hm'. simpl in Hm'.
  destruct (declared_member _ _ _ _ _ Hdecl j n' Hj (NoDup_not_later _ _ _ Hnd Hj))
    as [Hc' _].
  rewrite Hc' in Hm'. inversion Hm'; subst m'; clear Hm'.
  apply repr_injective in Hrepr; [|done].
  inversion Hrepr. lia.
Qed.

Lemma member_repr_witness :
  declare world0 "EnumTest" EnumTest_names = Ok (EnumTest_world, EnumTest) /\
  NoDup EnumTest_names /\
  EnumTest_names !! 1%nat = Some "bar" /\
  py_getattr EnumTest_world (PyClass (cls_id EnumTest)) "bar"
  = Ok (PyEV (mkEV 1 "bar" "EnumTest")) /\
  _EnumerationValue___repr__ (mkEV 1 "bar" "EnumTest") = "<EnumTest: bar=1>" /\
  (forall (j : nat) n' m',
     EnumTest_names !! j = Some n' ->
     py_getattr EnumTest_world (PyClass (cls_id EnumTest)) n' = Ok (PyEV m') ->
     _EnumerationValue___repr__ m'
     = _EnumerationValue___repr__ (mkEV 1 "bar" "EnumTest") ->
     j = 1%nat).
Proof.
  split; [vm_compute; reflexivity|].
  split; [apply NoDup_decide; vm_compute; reflexivity|].
  split; [reflexivity|].
  split; [vm_compute; reflexivity|].
  apply (member_repr world0 "EnumTest" EnumTest_names EnumTest_world EnumTest
           1 "bar" (mkEV 1 "bar" "EnumTest")).
  - vm_compute; reflexivity.
  - apply NoDup_decide; vm_compute; reflexivity.
  - reflexivity.
  - vm_compute; reflexivity.
Defined.

(** ** The list of values *)

(** [_values] mirrors the list of names position by position, however the
    members are called and even when a name is listed twice: it has one
    entry per name, and the entry at position [i] is the value object made
    for that position, with integer [i], the name listed there and the
    type's name. *)
Theorem values_mirror_names w nm names w' cls :
  declare w nm names = Ok (w', cls) ->
  exists vals,
    instance_getattr cls "_values" = Ok (PyList vals) /\
    length vals = length names /\
    (forall (i : nat) n, names !! i = Some n ->
       py_getitem (PyList vals) (PyInt (Z.of_nat i))
       = Ok (PyEV (mkEV (Z.of_nat i) n nm))) /\
    (forall i : nat, (length names <= i)%nat ->
       py_getitem (PyList vals) (PyInt (Z.of_nat i))
       = Raise (IndexError "list index out of range")).
Proof.
  intros Hdecl. exists (member_values nm 0 names).
  split; [by apply (declared__values _ _ _ _ _ Hdecl)|].
  split; [apply member_values_length|].
  split.
  - intros i n Hi. pose proof (lookup_lt_Some _ _ _ Hi) as Hlt.
    simpl. unfold list_getitem. rewrite member_values_length.
    rewrite (proj2 (Z.ltb_ge (Z.of_nat i) 0)) by lia.
    rewrite (proj2 (Z.ltb_ge (Z.of_nat i) 0)) by lia.
    rewrite (proj2 (Z.leb_gt (Z.of_nat (length names)) (Z.of_nat i))) by lia.
    simpl. rewrite Nat2Z.id, (member_values_lookup nm names 0 i n Hi).
    by rewrite Z.add_0_l.
  - intros i Hi. simpl. apply list_getitem_beyond.
    rewrite member_values_length. lia.
Qed.

Lemma values_mirror_names_witness :
  declare world0 "Dup" Dup_names = Ok (Dup_world, Dup) /\
  exists vals,
    instance_getattr Dup "_values" = Ok (PyList vals) /\
    length vals = length Dup_names /\
    (forall (i : nat) n, Dup_names !! i = Some n ->
       py_getitem (PyList vals) (PyInt (Z.of_nat i))
       = Ok (PyEV (mkEV (Z.of_nat i) n "Dup"))) /\
    (forall i : nat, (length Dup_names <= i)%nat ->
       py_getitem (PyList vals) (PyInt (Z.of_nat i))
       = Raise (IndexError "list index out of range")).
Proof.
  split; [vm_compute; reflexivity|].
  apply (values_mirror_names world0 "Dup" Dup_names Dup_world Dup).
  vm_compute; reflexivity.
Defined.
